(** * FFGLPlayer: the single-stream demultiplexer ([src/demuxer/demuxer.cpp])

    A shallow embedding of class [Demuxer] and of the part of the FFmpeg
    interface it drives, followed by the properties of its operations.
    The logger of [src/utils/logger.hpp] and one reading loop of the tests
    are embedded after it.

    Conventions of the embedding.
    - C integers ([int], [int64_t]) are [Z]; the class does no arithmetic of
      its own on them, it only compares them with [0], [AVERROR_EOF] and
      [AV_NOPTS_VALUE].
    - A pointer is an [option]: [None] is [nullptr], [Some x] is a pointer to
      the object [x].  A field of pointer type therefore carries its pointee;
      "the pointer did not change" reads "it is still [Some _]".
    - A member function that mutates [*this] takes the object and returns the
      new object next to its C++ result.
    - Log statements have no effect on control flow and are left out. *)

From Stdlib Require Import ZArith List Ascii String DecimalString Bool Lia.
Import ListNotations.
Open Scope Z_scope.

(** ** The FFmpeg side *)

Module AVRational.
Record t : Set := { num : Z; den : Z }.
End AVRational.

Module AVStream.
Record t : Set := { time_base : AVRational.t; duration : Z }.
End AVStream.

Module AVPacket.
Record t : Set := { stream_index : Z; pts : Z; size : Z }.
End AVPacket.

(** One call of [av_read_frame] as the container delivers it: the return
    code and the packet it filled in. *)
Definition Frame : Set := (Z * AVPacket.t)%type.

Module AVFormatContext.
(** [streams i] is the entry [streams[i]] of the stream table ([None]: a
    null entry); [frames] is what the coming calls of [av_read_frame]
    deliver, in order.  A container holds finitely many frames. *)
Record t : Set := {
  streams : Z -> option AVStream.t;
  duration : Z;
  frames : list Frame
}.

Definition with_frames (ctx : t) (fs : list Frame) : t :=
  {| streams := streams ctx; duration := duration ctx; frames := fs |}.
End AVFormatContext.

Inductive AVMediaType : Set := AVMEDIA_TYPE_VIDEO | AVMEDIA_TYPE_AUDIO.

Definition INT64_MIN : Z := - 2 ^ 63.
Definition AV_NOPTS_VALUE : Z := INT64_MIN.
Definition AV_TIME_BASE : Z := 1000000.
Definition AV_TIME_BASE_Q : AVRational.t :=
  {| AVRational.num := 1; AVRational.den := AV_TIME_BASE |}.
(** [FFERRTAG('E','O','F',' ')] *)
Definition AVERROR_EOF : Z := - 541478725.

(** Outcome of [avformat_open_input(&ctx, ...)] on a null [ctx]: a negative
    error code with [ctx] left null, or a fresh context. *)
Inductive OpenResult : Set :=
| OpenFailed (err : Z)
| Opened (ctx : AVFormatContext.t).

(** The calls whose outcome the container engine alone decides. *)
Record ContainerEngine : Type := {
  avformat_open_input : string -> OpenResult;
  avformat_find_stream_info : AVFormatContext.t -> Z * AVFormatContext.t;
  av_find_best_stream : AVFormatContext.t -> AVMediaType -> Z;
  av_seek_frame : AVFormatContext.t -> Z -> Z -> Z -> Z * AVFormatContext.t
}.

(** The packets allocated with [av_packet_alloc] and not yet freed, and the
    largest number of them alive at one time. *)
Record PacketHeap : Set := { live : nat; peak : nat }.

(** The fields of a packet fresh from [av_packet_alloc]. *)
Definition blank_packet : AVPacket.t :=
  {| AVPacket.stream_index := 0; AVPacket.pts := AV_NOPTS_VALUE;
     AVPacket.size := 0 |}.

Definition av_packet_alloc (h : PacketHeap) : AVPacket.t * PacketHeap :=
  (blank_packet,
   {| live := S (live h); peak := Nat.max (peak h) (S (live h)) |}).

Definition av_packet_free (h : PacketHeap) : PacketHeap :=
  {| live := Nat.pred (live h); peak := peak h |}.

(** [av_read_frame(ctx, pkt)]: the next frame of the container, or
    [AVERROR_EOF] with [pkt] untouched once the container is exhausted. *)
Definition av_read_frame (ctx : AVFormatContext.t) (pkt : AVPacket.t)
  : Z * AVPacket.t * AVFormatContext.t :=
  match AVFormatContext.frames ctx with
  | [] => (AVERROR_EOF, pkt, ctx)
  | (ret, filled) :: rest => (ret, filled, AVFormatContext.with_frames ctx rest)
  end.

(** Modelled from the spec: [av_rescale_q] belongs to FFmpeg, not to the
    repository; the spec names it [rescaleTime(value, fromBase, toBase)], an
    exact rational rescale [value * fromBase / toBase] on integers.  The
    library rounds the quotient to the nearest integer, halves away from
    zero ([rescale_round], on a non-negative value), works on the absolute
    value of a negative one (taking [INT64_MIN] for [-INT64_MAX]), and
    answers [INT64_MIN] for a non-positive divisor, a negative multiplier
    or a result that 64 bits cannot hold.  Every answer is an [int64_t]. *)
Definition INT64_MAX : Z := 2 ^ 63 - 1.

Definition rescale_round (a b c : Z) : Z := Z.quot (a * b + Z.quot c 2) c.

Definition av_rescale_near_inf (a b c : Z) : Z :=
  if (c <=? 0) || (b <? 0) then INT64_MIN
  else if a <? 0 then
    let r := rescale_round (- Z.max a (- INT64_MAX)) b c in
    if INT64_MAX <? r then INT64_MIN else - r
  else
    let r := rescale_round a b c in
    if INT64_MAX <? r then INT64_MIN else r.

Definition av_rescale_q (a : Z) (bq cq : AVRational.t) : Z :=
  av_rescale_near_inf a
    (AVRational.num bq * AVRational.den cq)
    (AVRational.num cq * AVRational.den bq).

(** ** The class *)

(** Modelled from the spec: [mediadefs.hpp] is not among the sources; the
    spec gives [mediaKind] as one of VIDEO and AUDIO. *)
Inductive MediaType : Set := VIDEO | AUDIO.

Record Demuxer : Set := {
  type_ : MediaType;
  format_ctx_ : option AVFormatContext.t;
  video_stream_ : option AVStream.t;
  audio_stream_ : option AVStream.t;
  video_stream_index_ : Z;
  audio_stream_index_ : Z;
  eof_file_ : bool
}.

Definition set_format_ctx (d : Demuxer) (c : option AVFormatContext.t) : Demuxer :=
  {| type_ := type_ d; format_ctx_ := c;
     video_stream_ := video_stream_ d; audio_stream_ := audio_stream_ d;
     video_stream_index_ := video_stream_index_ d;
     audio_stream_index_ := audio_stream_index_ d;
     eof_file_ := eof_file_ d |}.

Definition set_video_stream (d : Demuxer) (s : option AVStream.t) : Demuxer :=
  {| type_ := type_ d; format_ctx_ := format_ctx_ d;
     video_stream_ := s; audio_stream_ := audio_stream_ d;
     video_stream_index_ := video_stream_index_ d;
     audio_stream_index_ := audio_stream_index_ d;
     eof_file_ := eof_file_ d |}.

Definition set_audio_stream (d : Demuxer) (s : option AVStream.t) : Demuxer :=
  {| type_ := type_ d; format_ctx_ := format_ctx_ d;
     video_stream_ := video_stream_ d; audio_stream_ := s;
     video_stream_index_ := video_stream_index_ d;
     audio_stream_index_ := audio_stream_index_ d;
     eof_file_ := eof_file_ d |}.

Definition set_video_stream_index (d : Demuxer) (i : Z) : Demuxer :=
  {| type_ := type_ d; format_ctx_ := format_ctx_ d;
     video_stream_ := video_stream_ d; audio_stream_ := audio_stream_ d;
     video_stream_index_ := i;
     audio_stream_index_ := audio_stream_index_ d;
     eof_file_ := eof_file_ d |}.

Definition set_audio_stream_index (d : Demuxer) (i : Z) : Demuxer :=
  {| type_ := type_ d; format_ctx_ := format_ctx_ d;
     video_stream_ := video_stream_ d; audio_stream_ := audio_stream_ d;
     video_stream_index_ := video_stream_index_ d;
     audio_stream_index_ := i;
     eof_file_ := eof_file_ d |}.

Definition set_eof_file (d : Demuxer) (b : bool) : Demuxer :=
  {| type_ := type_ d; format_ctx_ := format_ctx_ d;
     video_stream_ := video_stream_ d; audio_stream_ := audio_stream_ d;
     video_stream_index_ := video_stream_index_ d;
     audio_stream_index_ := audio_stream_index_ d;
     eof_file_ := b |}.

(** [Demuxer::Demuxer(MediaType type)] *)
Definition Demuxer_ctor (type : MediaType) : Demuxer :=
  {| type_ := type; format_ctx_ := None;
     video_stream_ := None; audio_stream_ := None;
     video_stream_index_ := -1; audio_stream_index_ := -1;
     eof_file_ := false |}.

Definition is_video (t : MediaType) : bool :=
  match t with VIDEO => true | AUDIO => false end.

Definition getStreamIndex (d : Demuxer) : Z :=
  if is_video (type_ d) then video_stream_index_ d else audio_stream_index_ d.

Definition getAVStream (d : Demuxer) : option AVStream.t :=
  if is_video (type_ d) then video_stream_ d else audio_stream_ d.

Definition getFormatContext (d : Demuxer) : option AVFormatContext.t :=
  format_ctx_ d.

Definition isEOF (d : Demuxer) : bool := eof_file_ d.

(** [Demuxer::close]: [avformat_close_input] frees the session and nulls the
    pointer; then every derived field goes back to its default. *)
Definition close (d : Demuxer) : Demuxer :=
  let d1 := match format_ctx_ d with
            | Some _ => set_format_ctx d None
            | None => d
            end in
  let d2 := set_video_stream d1 None in
  let d3 := set_audio_stream d2 None in
  let d4 := set_video_stream_index d3 (-1) in
  let d5 := set_audio_stream_index d4 (-1) in
  set_eof_file d5 false.

(** [std::string::empty] *)
Definition empty (s : string) : bool :=
  match s with EmptyString => true | String _ _ => false end.

Section WithEngine.

Variable eng : ContainerEngine.

(** [Demuxer::open] *)
Definition open (d : Demuxer) (filename : string) : bool * Demuxer :=
  if empty filename then (false, d)
  else
    let d1 := match format_ctx_ d with
              | Some _ => close d
              | None => d
              end in
    match avformat_open_input eng filename with
    | OpenFailed _ => (false, d1)
    | Opened ctx0 =>
      let '(ret, ctx) := avformat_find_stream_info eng ctx0 in
      let d2 := set_format_ctx d1 (Some ctx) in
      if ret <? 0 then (false, close d2)
      else
        let vi := av_find_best_stream eng ctx AVMEDIA_TYPE_VIDEO in
        let d3 := set_video_stream_index d2 vi in
        let d4 := if 0 <=? vi
                  then set_video_stream d3 (AVFormatContext.streams ctx vi)
                  else d3 in
        let ai := av_find_best_stream eng ctx AVMEDIA_TYPE_AUDIO in
        let d5 := set_audio_stream_index d4 ai in
        let d6 := if 0 <=? ai
                  then set_audio_stream d5 (AVFormatContext.streams ctx ai)
                  else d5 in
        (true, d6)
    end.

(** [Demuxer::seek] *)
Definition seek (d : Demuxer) (timestamp flags : Z) : bool * Demuxer :=
  match format_ctx_ d with
  | None => (false, d)
  | Some ctx =>
    let stream_index := getStreamIndex d in
    if stream_index <? 0 then (false, d)
    else
      match AVFormatContext.streams ctx stream_index with
      | None => (false, d)
      | Some stream =>
        let seek_target :=
          av_rescale_q timestamp AV_TIME_BASE_Q (AVStream.time_base stream) in
        let '(ret, ctx') :=
          av_seek_frame eng ctx stream_index seek_target flags in
        let d1 := set_format_ctx d (Some ctx') in
        if ret <? 0 then (false, d1)
        else (true, set_eof_file d1 false)
      end
  end.

End WithEngine.

(** What [readPacket] hands back: the packet pointer, the object, the heap. *)
Record PacketRead : Set := {
  packet : option AVPacket.t;
  self : Demuxer;
  heap : PacketHeap
}.

(** The [while (true)] loop of [Demuxer::readPacket].  The recursion is on
    the frames the container still holds; [ctx] is the session without them,
    so that [with_frames ctx pending] is the session the iteration reads.
    Lemma [readPacket_loop_step] below restates one iteration with the call
    of [av_read_frame] as the source has it. *)
Fixpoint readPacket_loop (d : Demuxer) (target_stream_index : Z)
    (ctx : AVFormatContext.t) (h : PacketHeap) (pending : list Frame)
  : PacketRead :=
  let '(pkt0, h1) := av_packet_alloc h in
  match pending with
  | [] =>
    (* av_read_frame: AVERROR_EOF *)
    {| packet := None;
       self := set_eof_file
                 (set_format_ctx d (Some (AVFormatContext.with_frames ctx [])))
                 true;
       heap := av_packet_free h1 |}
  | (ret, pkt) :: rest =>
    let d1 := set_format_ctx d (Some (AVFormatContext.with_frames ctx rest)) in
    if ret <? 0 then
      {| packet := None;
         self := if ret =? AVERROR_EOF then set_eof_file d1 true else d1;
         heap := av_packet_free h1 |}
    else if AVPacket.stream_index pkt =? target_stream_index then
      {| packet := Some pkt; self := d1; heap := h1 |}
    else
      readPacket_loop d target_stream_index ctx (av_packet_free h1) rest
  end.

(** [Demuxer::readPacket] *)
Definition readPacket (d : Demuxer) (h : PacketHeap) : PacketRead :=
  match format_ctx_ d with
  | None => {| packet := None; self := d; heap := h |}
  | Some ctx =>
    let target_stream_index := getStreamIndex d in
    if target_stream_index <? 0
    then {| packet := None; self := d; heap := h |}
    else readPacket_loop d target_stream_index ctx h (AVFormatContext.frames ctx)
  end.

(** The value of [s && s->duration != AV_NOPTS_VALUE], with the duration
    rescaled from the stream's time base to microseconds when it holds. *)
Definition stream_duration (s : option AVStream.t) : option Z :=
  match s with
  | Some st =>
    if negb (AVStream.duration st =? AV_NOPTS_VALUE)
    then Some (av_rescale_q (AVStream.duration st) (AVStream.time_base st)
                 AV_TIME_BASE_Q)
    else None
  | None => None
  end.

(** [Demuxer::getDuration] *)
Definition getDuration (d : Demuxer) : Z :=
  match format_ctx_ d with
  | None => 0
  | Some ctx =>
    if negb (AVFormatContext.duration ctx =? AV_NOPTS_VALUE)
    then AVFormatContext.duration ctx
    else
      match stream_duration (getAVStream d) with
      | Some us => us
      | None =>
        match stream_duration (video_stream_ d) with
        | Some us => us
        | None =>
          match stream_duration (audio_stream_ d) with
          | Some us => us
          | None => 0
          end
        end
      end
  end.

(** ** The reads behind one call of readPacket

    [loop_reads target ctx skipped ret pkt ctx'] lists what the engine
    delivers to one run of the loop started on session [ctx]: first the
    packets [skipped], each read without error and belonging to a stream
    other than [target]; then the read that ends the loop, with return code
    [ret], packet [pkt] and session [ctx'] after it. *)
Inductive loop_reads (target : Z)
  : AVFormatContext.t -> list AVPacket.t -> Z -> AVPacket.t
    -> AVFormatContext.t -> Prop :=
| loop_reads_last ctx ret pkt ctx' :
    av_read_frame ctx blank_packet = (ret, pkt, ctx') ->
    ret < 0 \/ AVPacket.stream_index pkt = target ->
    loop_reads target ctx [] ret pkt ctx'
| loop_reads_skip ctx ret pkt ctx1 skipped ret' pkt' ctx' :
    av_read_frame ctx blank_packet = (ret, pkt, ctx1) ->
    0 <= ret ->
    AVPacket.stream_index pkt <> target ->
    loop_reads target ctx1 skipped ret' pkt' ctx' ->
    loop_reads target ctx (pkt :: skipped) ret' pkt' ctx'.

(** The instance is open with a target stream, and the read that ends the
    loop of [readPacket] returns a code satisfying [P]. *)
Definition last_read_returns (d : Demuxer) (P : Z -> Prop) : Prop :=
  exists ctx skipped ret pkt ctx',
    format_ctx_ d = Some ctx /\
    0 <= getStreamIndex d /\
    loop_reads (getStreamIndex d) ctx skipped ret pkt ctx' /\
    P ret.

(** What a run of the loop returns, read off the reads it makes. *)
Definition loop_result (d : Demuxer) (h : PacketHeap) (ret : Z)
    (pkt : AVPacket.t) (ctx' : AVFormatContext.t) : PacketRead :=
  {| packet := if ret <? 0 then None else Some pkt;
     self := if ret =? AVERROR_EOF
             then set_eof_file (set_format_ctx d (Some ctx')) true
             else set_format_ctx d (Some ctx');
     heap := {| live := if ret <? 0 then live h else S (live h);
                peak := Nat.max (peak h) (S (live h)) |} |}.

(** ** States an instance can be in

    The states reached from the constructor by the public operations, over
    one engine; [readPacket] may find any heap. *)
Inductive reachable (eng : ContainerEngine) : Demuxer -> Prop :=
| reach_ctor type :
    reachable eng (Demuxer_ctor type)
| reach_open d filename :
    reachable eng d -> reachable eng (snd (open eng d filename))
| reach_readPacket d h :
    reachable eng d -> reachable eng (self (readPacket d h))
| reach_seek d timestamp flags :
    reachable eng d -> reachable eng (snd (seek eng d timestamp flags))
| reach_close d :
    reachable eng d -> reachable eng (close d).

(** [av_find_best_stream] answers a negative code or the index of a
    stream of the table. *)
Definition best_stream_in_table (eng : ContainerEngine) : Prop :=
  forall ctx kind,
    0 <= av_find_best_stream eng ctx kind ->
    AVFormatContext.streams ctx (av_find_best_stream eng ctx kind) <> None.

(** Handles and indices agree, and a closed instance has neither. *)
Definition handles_consistent (d : Demuxer) : Prop :=
  (video_stream_ d <> None <-> 0 <= video_stream_index_ d) /\
  (audio_stream_ d <> None <-> 0 <= audio_stream_index_ d) /\
  (format_ctx_ d = None ->
   video_stream_ d = None /\ audio_stream_ d = None).

(** ** The duration cascade in the words of the specification

    "Resolution order (first available wins)": container-level duration,
    target stream, video stream, audio stream, zero. *)

Definition container_duration (ctx : AVFormatContext.t) : option Z :=
  if AVFormatContext.duration ctx =? AV_NOPTS_VALUE then None
  else Some (AVFormatContext.duration ctx).

Definition duration_sources (d : Demuxer) (ctx : AVFormatContext.t)
  : list (option Z) :=
  [ container_duration ctx;
    stream_duration (getAVStream d);
    stream_duration (video_stream_ d);
    stream_duration (audio_stream_ d) ].

Fixpoint first_available (sources : list (option Z)) : Z :=
  match sources with
  | [] => 0
  | Some v :: _ => v
  | None :: rest => first_available rest
  end.

(** The duration of a stream in microseconds, as the exact rescale of the
    spec rounds it: [duration * num * 1000000 / den] to the nearest
    integer. *)
Definition microseconds_of (st : AVStream.t) : Z :=
  rescale_round (AVStream.duration st)
    (AVRational.num (AVStream.time_base st) * AV_TIME_BASE)
    (AVRational.den (AVStream.time_base st)).

(** A stream whose duration, if it reports one, is non-negative over a
    time base with non-negative numerator and positive denominator, and
    in microseconds still fits 64 bits. *)
Definition stream_sane (s : option AVStream.t) : Prop :=
  match s with
  | None => True
  | Some st =>
    AVStream.duration st = AV_NOPTS_VALUE \/
    (0 <= AVStream.duration st /\
     0 <= AVRational.num (AVStream.time_base st) /\
     0 < AVRational.den (AVStream.time_base st) /\
     microseconds_of st <= INT64_MAX)
  end.

(** ** Concrete sessions used by the examples *)

Module Fixture.

Definition video_stream : AVStream.t :=
  {| AVStream.time_base := {| AVRational.num := 1; AVRational.den := 15360 |};
     AVStream.duration := 76800 |}.

Definition audio_stream : AVStream.t :=
  {| AVStream.time_base := {| AVRational.num := 1; AVRational.den := 44100 |};
     AVStream.duration := 220500 |}.

Definition pkt (index stamp : Z) : AVPacket.t :=
  {| AVPacket.stream_index := index; AVPacket.pts := stamp;
     AVPacket.size := 100 |}.

(** Video at index 0, audio at index 1, five seconds. *)
Definition av_table (i : Z) : option AVStream.t :=
  if i =? 0 then Some video_stream
  else if i =? 1 then Some audio_stream
  else None.

Definition av_file : AVFormatContext.t :=
  {| AVFormatContext.streams := av_table;
     AVFormatContext.duration := 5000000;
     AVFormatContext.frames :=
       [(0, pkt 1 0); (0, pkt 0 0); (0, pkt 1 1024); (0, pkt 0 512)] |}.

(** A video-only container. *)
Definition video_only_table (i : Z) : option AVStream.t :=
  if i =? 0 then Some video_stream else None.

Definition video_only_file : AVFormatContext.t :=
  {| AVFormatContext.streams := video_only_table;
     AVFormatContext.duration := 5000000;
     AVFormatContext.frames := [(0, pkt 0 0); (0, pkt 0 512)] |}.

(** A container whose stream table cannot be determined. *)
Definition broken_file : AVFormatContext.t :=
  {| AVFormatContext.streams := fun _ => None;
     AVFormatContext.duration := AV_NOPTS_VALUE;
     AVFormatContext.frames := [] |}.

(** A container for which the engine reports a negative duration. *)
Definition negative_file : AVFormatContext.t :=
  {| AVFormatContext.streams := video_only_table;
     AVFormatContext.duration := -1;
     AVFormatContext.frames := [(0, pkt 0 0)] |}.

(** A container without a duration of its own. *)
Definition untimed_file : AVFormatContext.t :=
  {| AVFormatContext.streams := av_table;
     AVFormatContext.duration := AV_NOPTS_VALUE;
     AVFormatContext.frames := [(0, pkt 0 0)] |}.

(** A stream counted in nanoseconds, and one of 10^13 ticks of a second. *)
Definition nano_stream : AVStream.t :=
  {| AVStream.time_base :=
       {| AVRational.num := 1; AVRational.den := 1000000000 |};
     AVStream.duration := 5000000000 |}.

Definition long_stream : AVStream.t :=
  {| AVStream.time_base := {| AVRational.num := 1; AVRational.den := 1 |};
     AVStream.duration := 10000000000000 |}.

Definition nano_file : AVFormatContext.t :=
  {| AVFormatContext.streams := fun i => if i =? 0 then Some nano_stream
                                         else None;
     AVFormatContext.duration := 5000000;
     AVFormatContext.frames := [(0, pkt 0 0)] |}.

Definition long_file : AVFormatContext.t :=
  {| AVFormatContext.streams := fun i => if i =? 0 then Some long_stream
                                         else None;
     AVFormatContext.duration := AV_NOPTS_VALUE;
     AVFormatContext.frames := [(0, pkt 0 0)] |}.

(** An engine that opens [long_file] on the path [l] and [nano_file] on
    every other path, and whose seek always succeeds and leaves the target
    it was given in the duration field of the session. *)
Definition echo_engine : ContainerEngine :=
  {| avformat_open_input := fun path =>
       match path with
       | String "l"%char EmptyString => Opened long_file
       | _ => Opened nano_file
       end;
     avformat_find_stream_info := fun ctx => (0, ctx);
     av_find_best_stream := fun ctx kind =>
       match kind with
       | AVMEDIA_TYPE_VIDEO => 0
       | AVMEDIA_TYPE_AUDIO => -1
       end;
     av_seek_frame := fun ctx index target flags =>
       (0, {| AVFormatContext.streams := AVFormatContext.streams ctx;
              AVFormatContext.duration := target;
              AVFormatContext.frames := AVFormatContext.frames ctx |}) |}.

Definition is_char (c : Ascii.ascii) (s : string) : bool :=
  match s with
  | String c' EmptyString => Ascii.eqb c c'
  | _ => false
  end.

(** An engine that knows five paths: [a] is [av_file], [v] is
    [video_only_file], [n] is [negative_file], [u] is [untimed_file] and
    [b] is [broken_file], which opens but cannot be probed.  A seek to a negative target fails; any other seek rewinds
    to the two frames of [video_only_file]. *)
Definition engine : ContainerEngine :=
  {| avformat_open_input := fun path =>
       if is_char "a"%char path then Opened av_file
       else if is_char "v"%char path then Opened video_only_file
       else if is_char "b"%char path then Opened broken_file
       else if is_char "n"%char path then Opened negative_file
       else if is_char "u"%char path then Opened untimed_file
       else OpenFailed (-2);
     avformat_find_stream_info := fun ctx =>
       match AVFormatContext.frames ctx with
       | [] => (-1, ctx)
       | _ :: _ => (0, ctx)
       end;
     av_find_best_stream := fun ctx kind =>
       match kind with
       | AVMEDIA_TYPE_VIDEO =>
         match AVFormatContext.streams ctx 0 with Some _ => 0 | None => -1 end
       | AVMEDIA_TYPE_AUDIO =>
         match AVFormatContext.streams ctx 1 with Some _ => 1 | None => -1 end
       end;
     av_seek_frame := fun ctx index target flags =>
       if target <? 0 then (-22, ctx)
       else (0, AVFormatContext.with_frames ctx
                  (AVFormatContext.frames video_only_file)) |}.

(** Instances: fresh, and after [open] on each path. *)
Definition a_path : string := String "a"%char EmptyString.
Definition v_path : string := String "v"%char EmptyString.
Definition b_path : string := String "b"%char EmptyString.
Definition n_path : string := String "n"%char EmptyString.
Definition u_path : string := String "u"%char EmptyString.
Definition x_path : string := String "x"%char EmptyString.

Definition video_on_av : Demuxer := snd (open engine (Demuxer_ctor VIDEO) a_path).
Definition audio_on_av : Demuxer := snd (open engine (Demuxer_ctor AUDIO) a_path).
Definition audio_on_video_only : Demuxer :=
  snd (open engine (Demuxer_ctor AUDIO) v_path).

Definition video_on_negative : Demuxer :=
  snd (open engine (Demuxer_ctor VIDEO) n_path).
Definition audio_on_untimed : Demuxer :=
  snd (open engine (Demuxer_ctor AUDIO) u_path).

Definition video_on_nano : Demuxer :=
  snd (open echo_engine (Demuxer_ctor VIDEO) n_path).
Definition video_on_long : Demuxer :=
  snd (open echo_engine (Demuxer_ctor VIDEO)
         (String "l"%char EmptyString)).

(** An open VIDEO instance whose index points at a null table entry. *)
Definition video_on_null_entry : Demuxer :=
  {| type_ := VIDEO; format_ctx_ := Some broken_file;
     video_stream_ := None; audio_stream_ := None;
     video_stream_index_ := 0; audio_stream_index_ := -1;
     eof_file_ := false |}.

Definition empty_heap : PacketHeap := {| live := 0; peak := 0 |}.

(** [video_on_av] after its two video packets, and after the read that
    follows them. *)
Definition video_after_two : Demuxer :=
  self (readPacket (self (readPacket video_on_av empty_heap)) empty_heap).

Definition video_at_eof : Demuxer :=
  self (readPacket video_after_two empty_heap).

End Fixture.

(** ** A caller: reading a stream to its end

    The loop of [testEOFDetection] ([tests/demuxer/test_demuxer.cpp]):
    call [readPacket] until it returns null, free every packet received,
    and give up once [packet_count] exceeds a limit (1000 in the source, so
    at most 1001 packets are read).  [budget] is the number of packets the
    loop may still receive; [packets] lists the packets received, in
    order, so that [packet_count] is its length. *)
Record Drained : Set := {
  packets : list AVPacket.t;
  drained_self : Demuxer;
  drained_heap : PacketHeap
}.

Fixpoint read_until_null (budget : nat) (d : Demuxer) (h : PacketHeap)
  : Drained :=
  match budget with
  | O => {| packets := []; drained_self := d; drained_heap := h |}
  | S budget' =>
    let r := readPacket d h in
    match packet r with
    | Some p =>
      let rest := read_until_null budget' (self r) (av_packet_free (heap r)) in
      {| packets := p :: packets rest;
         drained_self := drained_self rest;
         drained_heap := drained_heap rest |}
    | None =>
      {| packets := []; drained_self := self r; drained_heap := heap r |}
    end
  end.

Definition testEOFDetection_loop (d : Demuxer) (h : PacketHeap) : Drained :=
  read_until_null 1001 d h.

(** The packets of stream [target] among the frames a container delivers
    before its first failing read, in container order. *)
Fixpoint stream_packets (target : Z) (fs : list Frame) : list AVPacket.t :=
  match fs with
  | [] => []
  | (ret, pkt) :: rest =>
    if ret <? 0 then []
    else if AVPacket.stream_index pkt =? target
         then pkt :: stream_packets target rest
         else stream_packets target rest
  end.

(** Whether the first failing read of the container is its end: no frame
    fails, or the first one that does reports [AVERROR_EOF]. *)
Fixpoint ends_at_eof (fs : list Frame) : bool :=
  match fs with
  | [] => true
  | (ret, _) :: rest => if ret <? 0 then ret =? AVERROR_EOF else ends_at_eof rest
  end.

(** ** The logger ([src/utils/logger.hpp])

    A C string is a [string] (its bytes up to the terminating NUL).  The
    standard streams are the text written to them so far.  What the
    constructor of a log line asks of its environment, the local time as
    [strftime] prints it, the microseconds within the second and the
    printed thread id, is a [Moment].  The static member [globalLevel_] is
    read at three places; each of the functions below takes the value read
    there as its first argument. *)

Module Logger.

Definition ESC : ascii := "027"%char.
Definition LF : ascii := "010"%char.

(** [struct Color] *)
Definition RESET : string := String ESC "[0m".
Definition RED : string := String ESC "[31m".
Definition GREEN : string := String ESC "[32m".
Definition YELLOW : string := String ESC "[33m".
Definition BLUE : string := String ESC "[34m".
Definition MAGENTA : string := String ESC "[35m".
Definition CYAN : string := String ESC "[36m".
Definition WHITE : string := String ESC "[37m".
Definition BOLD : string := String ESC "[1m".

Inductive LogLevel : Set := DEBUG | INFO | WARN | ERROR | FATAL.

Definition level_value (level : LogLevel) : Z :=
  match level with
  | DEBUG => 0
  | INFO => 1
  | WARN => 2
  | ERROR => 3
  | FATAL => 4
  end.

(** [a >= b] on [LogLevel] *)
Definition level_ge (a b : LogLevel) : bool :=
  level_value b <=? level_value a.

(** [inline LogLevel Logger::globalLevel_ = LogLevel::INFO] *)
Definition initial_globalLevel : LogLevel := INFO.

Definition is_separator (c : ascii) : bool :=
  Ascii.eqb c "/"%char || Ascii.eqb c "092"%char.

(** The [for] loop of [getFileName]: [p] runs over the path, [fileName]
    is the suffix after the last separator seen. *)
Fixpoint getFileName_from (p fileName : string) : string :=
  match p with
  | EmptyString => fileName
  | String c rest =>
    getFileName_from rest (if is_separator c then rest else fileName)
  end.

(** [LogStream::getFileName] *)
Definition getFileName (filePath : string) : string :=
  getFileName_from filePath filePath.

(** [LogStream::getLevelStr] *)
Definition getLevelStr (level : LogLevel) : string :=
  match level with
  | DEBUG => "DEBUG"
  | INFO => "INFO"
  | WARN => "WARN"
  | ERROR => "ERROR"
  | FATAL => "FATAL"
  end.

(** [LogStream::getLevelColor] *)
Definition getLevelColor (level : LogLevel) : string :=
  match level with
  | DEBUG => RESET
  | INFO => GREEN
  | WARN => YELLOW
  | ERROR => RED
  | FATAL => RED
  end.

(** What [operator<<] is given: text, or an integer that the stream prints
    in decimal. *)
Inductive Value : Set :=
| Text (s : string)
| Int (n : Z).

Definition decimal (n : Z) : string := NilZero.string_of_int (Z.to_int n).

Definition render (v : Value) : string :=
  match v with
  | Text s => s
  | Int n => decimal n
  end.

Fixpoint fill_string (n : nat) (c : ascii) : string :=
  match n with
  | O => EmptyString
  | S n' => String c (fill_string n' c)
  end.

(** [std::setfill(fill) << std::setw(width) << s], right-adjusted. *)
Definition setw_fill (width : nat) (fill : ascii) (s : string) : string :=
  String.append (fill_string (width - String.length s) fill) s.

Record Moment : Set := {
  buffer : string;
  now_ms : Z;
  thread_id : string
}.

Record LogStream : Set := {
  stream_ : string;
  level_ : LogLevel;
  file_ : string;
  function_ : string;
  line_ : Z
}.

Definition with_stream (ls : LogStream) (text : string) : LogStream :=
  {| stream_ := text; level_ := level_ ls; file_ := file_ ls;
     function_ := function_ ls; line_ := line_ ls |}.

(** The head of a log line, as the constructor writes it. *)
Definition header (m : Moment) (level : LogLevel) (file function : string)
    (line : Z) : string :=
  String.concat EmptyString
    [ CYAN; "["%string; buffer m; "."%string;
      setw_fill 6 "0"%char (decimal (now_ms m)); "] "%string;
      getLevelColor level; BOLD; "["%string; getLevelStr level; "] "%string;
      MAGENTA; "["%string; thread_id m; "] "%string;
      BLUE; "["%string; file; ":"%string; decimal line; "] "%string;
      CYAN; "["%string; function; "] "%string;
      getLevelColor level ].

(** [LogStream::LogStream] *)
Definition LogStream_ctor (globalLevel_ : LogLevel) (m : Moment)
    (level : LogLevel) (file function : string) (line : Z) : LogStream :=
  let file_ := getFileName file in
  {| stream_ := if level_ge level globalLevel_
                then header m level file_ function line
                else EmptyString;
     level_ := level; file_ := file_; function_ := function; line_ := line |}.

(** [LogStream::operator<<] *)
Definition shift (globalLevel_ : LogLevel) (ls : LogStream) (value : Value)
  : LogStream :=
  if level_ge (level_ ls) globalLevel_
  then with_stream ls (String.append (stream_ ls) (render value))
  else ls.

Record Console : Set := { cout : string; cerr : string }.

(** [LogStream::~LogStream] *)
Definition LogStream_dtor (globalLevel_ : LogLevel) (ls : LogStream)
    (out : Console) : Console :=
  if level_ge (level_ ls) globalLevel_ then
    let text :=
      String.append (stream_ ls)
        (String.append RESET (String LF EmptyString)) in
    let out1 := {| cout := String.append (cout out) text;
                   cerr := cerr out |} in
    if level_ge (level_ ls) ERROR
    then {| cout := cout out1; cerr := String.append (cerr out1) text |}
    else out1
  else out.

Definition Debug (globalLevel_ : LogLevel) (m : Moment)
    (file function : string) (line : Z) : LogStream :=
  LogStream_ctor globalLevel_ m DEBUG file function line.

Definition Info (globalLevel_ : LogLevel) (m : Moment)
    (file function : string) (line : Z) : LogStream :=
  LogStream_ctor globalLevel_ m INFO file function line.

Definition Warn (globalLevel_ : LogLevel) (m : Moment)
    (file function : string) (line : Z) : LogStream :=
  LogStream_ctor globalLevel_ m WARN file function line.

Definition Error (globalLevel_ : LogLevel) (m : Moment)
    (file function : string) (line : Z) : LogStream :=
  LogStream_ctor globalLevel_ m ERROR file function line.

Definition Fatal (globalLevel_ : LogLevel) (m : Moment)
    (file function : string) (line : Z) : LogStream :=
  LogStream_ctor globalLevel_ m FATAL file function line.

(** A log statement [LOG_X << v1 << ... << vn;]: the temporary is built
    under the level [at_ctor], receives the values and is destroyed at the
    end of the statement, both under the level [after]. *)
Definition statement (at_ctor after : LogLevel) (m : Moment)
    (level : LogLevel) (file function : string) (line : Z)
    (values : list Value) (out : Console) : Console :=
  LogStream_dtor after
    (fold_left (shift after) values
       (LogStream_ctor at_ctor m level file function line))
    out.

(** The statement while nobody changes the global level. *)
Definition log (globalLevel_ : LogLevel) (m : Moment) (level : LogLevel)
    (file function : string) (line : Z) (values : list Value)
    (out : Console) : Console :=
  statement globalLevel_ globalLevel_ m level file function line values out.

(** Vocabulary for the properties. *)
Fixpoint contains (f : ascii -> bool) (s : string) : bool :=
  match s with
  | EmptyString => false
  | String c rest => f c || contains f rest
  end.

Definition ends_with_separator (s : string) : Prop :=
  exists q c, s = String.append q (String c EmptyString) /\
              is_separator c = true.

Definition is_newline (c : ascii) : bool := Ascii.eqb c LF.

(** A sample of the environment and of a call site. *)
Definition sample_moment : Moment :=
  {| buffer := "2025-01-02 03:04:05"; now_ms := 4711;
     thread_id := "140241" |}.

Definition sample_path : string := "/home/dev/src/demuxer/demuxer.cpp".

End Logger.

(** ** Properties *)

(** *** close *)

Lemma close_is_ctor (d : Demuxer) : close d = Demuxer_ctor (type_ d).
Proof. destruct d as [t [c|] vs aus vi ai e]; reflexivity. Qed.

(** C8. [close] is idempotent: closing twice gives the state closing once
    gives, on every instance (open or already closed); and after a [close]
    the session handle is null, both stream handles are null, both stream
    indices are -1 and the EOF flag is false. *)
Theorem close_idempotent (d : Demuxer) :
  close (close d) = close d /\
  format_ctx_ (close d) = None /\
  video_stream_ (close d) = None /\
  audio_stream_ (close d) = None /\
  video_stream_index_ (close d) = -1 /\
  audio_stream_index_ (close d) = -1 /\
  eof_file_ (close d) = false.
Proof.
  rewrite !close_is_ctor. simpl. repeat split.
Qed.

(** *** open *)

Section OpenFacts.

Variable eng : ContainerEngine.

(** C5, as amended.  [open] on an empty path returns false and changes no
    field of the instance; so the instance is closed afterwards exactly
    when it was closed before. *)
Theorem open_empty_path (d : Demuxer) (filename : string) :
  empty filename = true ->
  open eng d filename = (false, d) /\
  (format_ctx_ (snd (open eng d filename)) = None <-> format_ctx_ d = None).
Proof.
  intros Hempty. unfold open. rewrite Hempty. simpl. split; [reflexivity | tauto].
Qed.

Lemma open_nonempty (d : Demuxer) (filename : string) :
  empty filename = false ->
  open eng d filename =
  match avformat_open_input eng filename with
  | OpenFailed _ =>
    (false, match format_ctx_ d with Some _ => close d | None => d end)
  | Opened ctx0 =>
    if fst (avformat_find_stream_info eng ctx0) <? 0
    then (false, Demuxer_ctor (type_ d))
    else (true, snd (open eng d filename))
  end.
Proof.
  intros Hne. unfold open. rewrite Hne.
  destruct (avformat_open_input eng filename) as [err|ctx0]; [reflexivity|].
  destruct (avformat_find_stream_info eng ctx0) as [ret ctx]. simpl fst.
  destruct (ret <? 0); [|reflexivity].
  rewrite close_is_ctor. destruct (format_ctx_ d); [rewrite close_is_ctor|]; reflexivity.
Qed.

(** C3. On a non-empty path [open] returns true exactly when the engine
    opens the container and the stream probe does not fail, whatever
    [av_find_best_stream] answers for either kind; and when the probe
    fails the instance is left closed: null session, null handles, both
    indices -1, EOF flag false. *)
Theorem open_true_iff (d : Demuxer) (filename : string) :
  empty filename = false ->
  (fst (open eng d filename) = true <->
   exists ctx0, avformat_open_input eng filename = Opened ctx0 /\
                0 <= fst (avformat_find_stream_info eng ctx0)) /\
  (forall ctx0, avformat_open_input eng filename = Opened ctx0 ->
                fst (avformat_find_stream_info eng ctx0) < 0 ->
                open eng d filename = (false, Demuxer_ctor (type_ d))).
Proof.
  intros Hne. rewrite (open_nonempty d filename Hne). split.
  - destruct (avformat_open_input eng filename) as [err|ctx0].
    + split; [discriminate | intros [c [Hc _]]; discriminate].
    + destruct (fst (avformat_find_stream_info eng ctx0) <? 0) eqn:Hret; simpl.
      * apply Z.ltb_lt in Hret. split; [discriminate|].
        intros [c [Hc Hok]]. injection Hc as <-. lia.
      * apply Z.ltb_ge in Hret. split; [|reflexivity].
        intros _. exists ctx0. split; [reflexivity | exact Hret].
  - intros ctx0 Hopen Hret. rewrite Hopen.
    apply Z.ltb_lt in Hret. rewrite Hret. reflexivity.
Qed.

End OpenFacts.

(** C3 at the fixture: an AUDIO instance opens a video-only container
    successfully and its target index is -1; a container that cannot be
    probed leaves the instance closed. *)
Lemma open_true_iff_witness :
  empty Fixture.v_path = false /\
  fst (open Fixture.engine (Demuxer_ctor AUDIO) Fixture.v_path) = true /\
  getStreamIndex Fixture.audio_on_video_only = -1 /\
  open Fixture.engine Fixture.video_on_av Fixture.b_path
  = (false, Demuxer_ctor VIDEO).
Proof.
  split; [reflexivity|]. split.
  - apply (proj1 (open_true_iff Fixture.engine (Demuxer_ctor AUDIO)
                    Fixture.v_path eq_refl)).
    exists Fixture.video_only_file. split; [reflexivity | simpl; lia].
  - split; [reflexivity|].
    apply (proj2 (open_true_iff Fixture.engine Fixture.video_on_av
                    Fixture.b_path eq_refl) Fixture.broken_file);
      [reflexivity | simpl; lia].
Defined.

Lemma open_empty_path_witness :
  empty EmptyString = true /\
  open Fixture.engine Fixture.video_on_av EmptyString
  = (false, Fixture.video_on_av).
Proof.
  split; [reflexivity|].
  apply (proj1 (open_empty_path Fixture.engine Fixture.video_on_av
                  EmptyString eq_refl)).
Defined.

(** C5 as stated fails on an open instance: [open] on the empty path returns
    before anything is closed, so the instance is not left closed. *)
Lemma open_empty_path_keeps_open :
  format_ctx_ Fixture.video_on_av <> None /\
  ~ (fst (open Fixture.engine Fixture.video_on_av EmptyString) = false /\
     format_ctx_ (snd (open Fixture.engine Fixture.video_on_av EmptyString))
     = None).
Proof.
  split; [discriminate|]. intros [_ H]. discriminate H.
Qed.

(** *** Time rescaling *)

Lemma quot_half_bounds (c : Z) : 0 < c -> c - 1 <= 2 * Z.quot c 2 <= c.
Proof.
  intros Hc. rewrite Z.quot_div_nonneg by lia.
  pose proof (Z.div_mod c 2 ltac:(lia)) as Hdm.
  pose proof (Z.mod_pos_bound c 2 ltac:(lia)) as Hm. lia.
Qed.

Lemma round_quot_near (n c : Z) :
  0 <= n -> 0 < c ->
  2 * Z.abs (Z.quot (n + Z.quot c 2) c * c - n) <= c.
Proof.
  intros Hn Hc. pose proof (quot_half_bounds c Hc) as Hh.
  assert (0 <= Z.quot c 2) by (apply Z.quot_pos; lia).
  rewrite Z.quot_div_nonneg by lia.
  pose proof (Z.div_mod (n + Z.quot c 2) c ltac:(lia)) as Hdm.
  pose proof (Z.mod_pos_bound (n + Z.quot c 2) c Hc) as Hm.
  set (q := (n + Z.quot c 2) / c) in *.
  set (m := (n + Z.quot c 2) mod c) in *.
  replace (q * c) with (c * q) by ring.
  generalize dependent (c * q). intros cq Hdm.
  generalize dependent (Z.quot c 2). intros h Hh Hh0 Hdm. lia.
Qed.

Lemma rescale_round_nonneg (a b c : Z) :
  0 <= a -> 0 <= b -> 0 < c -> 0 <= rescale_round a b c.
Proof.
  intros Ha Hb Hc. unfold rescale_round. apply Z.quot_pos; [|lia].
  assert (0 <= Z.quot c 2) by (apply Z.quot_pos; lia). nia.
Qed.

Lemma rescale_round_near (a b c : Z) :
  0 <= a -> 0 <= b -> 0 < c ->
  2 * Z.abs (rescale_round a b c * c - a * b) <= c.
Proof.
  intros Ha Hb Hc. unfold rescale_round. apply round_quot_near; nia.
Qed.

(** The routine on operands it accepts: what it answers for a value whose
    rescale fits 64 bits, and for one whose rescale does not. *)
Lemma av_rescale_near_inf_cases (a b c : Z) :
  0 <= b -> 0 < c -> - INT64_MAX <= a ->
  av_rescale_near_inf a b c
  = (if INT64_MAX <? rescale_round (Z.abs a) b c then INT64_MIN
     else Z.sgn a * rescale_round (Z.abs a) b c).
Proof.
  intros Hb Hc Ha. unfold av_rescale_near_inf. cbv zeta.
  replace (c <=? 0) with false by (symmetry; apply Z.leb_gt; exact Hc).
  replace (b <? 0) with false by (symmetry; apply Z.ltb_ge; exact Hb).
  cbn [orb]. destruct (a <? 0) eqn:Hneg.
  - apply Z.ltb_lt in Hneg. rewrite Z.max_l by lia.
    rewrite Z.abs_neq by lia. rewrite Z.sgn_neg by lia.
    destruct (INT64_MAX <? rescale_round (- a) b c); [reflexivity | lia].
  - apply Z.ltb_ge in Hneg. rewrite Z.abs_eq by exact Hneg.
    destruct (INT64_MAX <? rescale_round a b c); [reflexivity|].
    destruct (Z.eq_dec a 0) as [->|Hnz].
    + unfold rescale_round. rewrite Z.mul_0_l, Z.add_0_l.
      rewrite Z.quot_small; [reflexivity|].
      pose proof (quot_half_bounds c Hc). lia.
    + rewrite Z.sgn_pos by lia. lia.
Qed.

Lemma av_rescale_near_inf_near (a b c : Z) :
  0 <= b -> 0 < c -> - INT64_MAX <= a ->
  rescale_round (Z.abs a) b c <= INT64_MAX ->
  2 * Z.abs (av_rescale_near_inf a b c * c - a * b) <= c.
Proof.
  intros Hb Hc Ha Hfits. rewrite av_rescale_near_inf_cases by assumption.
  replace (INT64_MAX <? rescale_round (Z.abs a) b c) with false
    by (symmetry; apply Z.ltb_ge; exact Hfits).
  pose proof (rescale_round_near (Z.abs a) b c (Z.abs_nonneg a) Hb Hc) as Hr.
  destruct (Z.lt_total a 0) as [Hlt|[->|Hgt]].
  - rewrite Z.sgn_neg by exact Hlt.
    rewrite (Z.abs_neq a) in * by lia.
    generalize dependent (rescale_round (- a) b c). intros R _ HR. nia.
  - simpl Z.sgn. simpl (Z.abs 0) in *.
    generalize dependent (rescale_round 0 b c). intros R _ HR. nia.
  - rewrite Z.sgn_pos by exact Hgt.
    rewrite (Z.abs_eq a) in * by lia.
    generalize dependent (rescale_round a b c). intros R _ HR. nia.
Qed.

Lemma av_rescale_near_inf_overflow (a b c : Z) :
  0 <= b -> 0 < c -> - INT64_MAX <= a ->
  INT64_MAX < rescale_round (Z.abs a) b c ->
  av_rescale_near_inf a b c = INT64_MIN.
Proof.
  intros Hb Hc Ha Hover. rewrite av_rescale_near_inf_cases by assumption.
  apply Z.ltb_lt in Hover. rewrite Hover. reflexivity.
Qed.

Lemma av_rescale_near_inf_nonneg (a b c : Z) :
  0 <= a -> 0 <= b -> 0 < c ->
  rescale_round a b c <= INT64_MAX ->
  0 <= av_rescale_near_inf a b c.
Proof.
  intros Ha Hb Hc Hfits. unfold av_rescale_near_inf. cbv zeta.
  replace (c <=? 0) with false by (symmetry; apply Z.leb_gt; exact Hc).
  replace (b <? 0) with false by (symmetry; apply Z.ltb_ge; exact Hb).
  replace (a <? 0) with false by (symmetry; apply Z.ltb_ge; exact Ha).
  cbn [orb].
  replace (INT64_MAX <? rescale_round a b c) with false
    by (symmetry; apply Z.ltb_ge; exact Hfits).
  apply rescale_round_nonneg; assumption.
Qed.

(** Whatever it is given, the routine answers a 64-bit value. *)
Lemma av_rescale_near_inf_int64 (a b c : Z) :
  INT64_MIN <= av_rescale_near_inf a b c <= INT64_MAX.
Proof.
  unfold av_rescale_near_inf. cbv zeta.
  assert (Hrange : INT64_MIN <= - INT64_MAX /\ INT64_MIN < 0 < INT64_MAX)
    by (unfold INT64_MIN, INT64_MAX; lia).
  destruct ((c <=? 0) || (b <? 0)) eqn:Hbad; [lia|].
  apply orb_false_iff in Hbad. destruct Hbad as [Hc Hb].
  apply Z.leb_gt in Hc. apply Z.ltb_ge in Hb.
  destruct (a <? 0) eqn:Hneg.
  - apply Z.ltb_lt in Hneg.
    pose proof (rescale_round_nonneg (- Z.max a (- INT64_MAX)) b c
                  ltac:(lia) Hb Hc) as Hr.
    destruct (INT64_MAX <? rescale_round (- Z.max a (- INT64_MAX)) b c)
      eqn:Hover; [lia|].
    apply Z.ltb_ge in Hover. lia.
  - apply Z.ltb_ge in Hneg.
    pose proof (rescale_round_nonneg a b c Hneg Hb Hc) as Hr.
    destruct (INT64_MAX <? rescale_round a b c) eqn:Hover; [lia|].
    apply Z.ltb_ge in Hover. lia.
Qed.

Lemma av_rescale_q_int64 (a : Z) (bq cq : AVRational.t) :
  INT64_MIN <= av_rescale_q a bq cq <= INT64_MAX.
Proof. apply av_rescale_near_inf_int64. Qed.

(** *** seek *)

Section SeekFacts.

Variable eng : ContainerEngine.

(** The two ways [seek] ends once the engine has been asked. *)
Lemma seek_open (d : Demuxer) (ctx : AVFormatContext.t) (stream : AVStream.t)
    (timestamp flags : Z) :
  format_ctx_ d = Some ctx ->
  0 <= getStreamIndex d ->
  AVFormatContext.streams ctx (getStreamIndex d) = Some stream ->
  seek eng d timestamp flags =
  (let '(ret, ctx') :=
     av_seek_frame eng ctx (getStreamIndex d)
       (av_rescale_q timestamp AV_TIME_BASE_Q (AVStream.time_base stream))
       flags in
   if ret <? 0 then (false, set_format_ctx d (Some ctx'))
   else (true, set_eof_file (set_format_ctx d (Some ctx')) false)).
Proof.
  intros Hctx Hidx Hstream. unfold seek. rewrite Hctx.
  replace (getStreamIndex d <? 0) with false
    by (symmetry; apply Z.ltb_ge; exact Hidx).
  rewrite Hstream. reflexivity.
Qed.

(** C4. After a [seek] that returns true the EOF flag is false, whatever
    it was before.  After a [seek] that returns false the EOF flag and
    every other field are as before: the media kind, both stream handles,
    both indices, and the session handle (null stays null, a session
    stays the session; only the engine's own state behind it may have
    moved when the engine's seek was the call that failed).  When the
    instance is not open or has no target stream, nothing at all
    changes. *)
Theorem seek_eof_flag (d : Demuxer) (timestamp flags : Z) :
  (fst (seek eng d timestamp flags) = true ->
   eof_file_ (snd (seek eng d timestamp flags)) = false) /\
  (fst (seek eng d timestamp flags) = false ->
   eof_file_ (snd (seek eng d timestamp flags)) = eof_file_ d /\
   type_ (snd (seek eng d timestamp flags)) = type_ d /\
   video_stream_ (snd (seek eng d timestamp flags)) = video_stream_ d /\
   audio_stream_ (snd (seek eng d timestamp flags)) = audio_stream_ d /\
   video_stream_index_ (snd (seek eng d timestamp flags))
   = video_stream_index_ d /\
   audio_stream_index_ (snd (seek eng d timestamp flags))
   = audio_stream_index_ d /\
   (format_ctx_ (snd (seek eng d timestamp flags)) = None
    <-> format_ctx_ d = None)) /\
  (format_ctx_ d = None \/ getStreamIndex d < 0 ->
   seek eng d timestamp flags = (false, d)).
Proof.
  unfold seek. destruct (format_ctx_ d) as [ctx|] eqn:Hctx.
  - destruct (getStreamIndex d <? 0) eqn:Hidx.
    + simpl. rewrite Hctx. repeat split; try discriminate; tauto.
    + apply Z.ltb_ge in Hidx.
      destruct (AVFormatContext.streams ctx (getStreamIndex d)) as [stream|].
      * destruct (av_seek_frame eng ctx (getStreamIndex d) _ flags)
          as [ret ctx'].
        destruct (ret <? 0); simpl; rewrite ?Hctx;
          repeat split; try discriminate; try tauto.
        all: intros [H|H]; [discriminate | lia].
      * simpl. rewrite Hctx. repeat split; try discriminate; try tauto.
        all: intros [H|H]; [discriminate | lia].
  - simpl. rewrite Hctx. repeat split; try discriminate; tauto.
Qed.

(** C7, as amended.  When the instance is open, a target stream is
    resolved, its table entry [stream] has a positive time base [num/den]
    and the timestamp is a 64-bit value above [INT64_MIN], the engine's
    seek is called on the target index with the caller's flags and with
    [seek_target = av_rescale_q(timestamp, 1/1000000, num/den)], a 64-bit
    integer.  When [timestamp * den / (num * 1000000)], rounded to the
    nearest integer, fits 64 bits, [seek_target] is that integer: it
    differs from the rational by at most half a tick.  When it does not
    fit, [seek_target] is [INT64_MIN].  All of it is integer arithmetic. *)
Theorem seek_target_rescaled (d : Demuxer) (ctx : AVFormatContext.t)
    (stream : AVStream.t) (timestamp flags : Z) :
  format_ctx_ d = Some ctx ->
  0 <= getStreamIndex d ->
  AVFormatContext.streams ctx (getStreamIndex d) = Some stream ->
  0 < AVRational.num (AVStream.time_base stream) ->
  0 < AVRational.den (AVStream.time_base stream) ->
  - INT64_MAX <= timestamp <= INT64_MAX ->
  exists seek_target : Z,
    seek_target
    = av_rescale_q timestamp AV_TIME_BASE_Q (AVStream.time_base stream) /\
    seek eng d timestamp flags =
    (let '(ret, ctx') :=
       av_seek_frame eng ctx (getStreamIndex d) seek_target flags in
     if ret <? 0 then (false, set_format_ctx d (Some ctx'))
     else (true, set_eof_file (set_format_ctx d (Some ctx')) false)) /\
    INT64_MIN <= seek_target <= INT64_MAX /\
    (rescale_round (Z.abs timestamp)
       (AVRational.den (AVStream.time_base stream))
       (AVRational.num (AVStream.time_base stream) * 1000000)
     <= INT64_MAX ->
     2 * Z.abs (seek_target
                * (AVRational.num (AVStream.time_base stream) * 1000000)
                - timestamp * AVRational.den (AVStream.time_base stream))
     <= AVRational.num (AVStream.time_base stream) * 1000000) /\
    (INT64_MAX
     < rescale_round (Z.abs timestamp)
         (AVRational.den (AVStream.time_base stream))
         (AVRational.num (AVStream.time_base stream) * 1000000) ->
     seek_target = INT64_MIN).
Proof.
  intros Hctx Hidx Hstream Hnum Hden Hts.
  eexists. split; [reflexivity|]. split; [apply seek_open; assumption|].
  split; [apply av_rescale_q_int64|].
  unfold av_rescale_q, AV_TIME_BASE_Q, AV_TIME_BASE.
  cbn [AVRational.num AVRational.den].
  set (n := AVRational.num (AVStream.time_base stream)) in *.
  set (m := AVRational.den (AVStream.time_base stream)) in *.
  rewrite Z.mul_1_l. split.
  - intros Hfits.
    apply (av_rescale_near_inf_near timestamp m (n * 1000000));
      [lia | lia | lia | exact Hfits].
  - intros Hover.
    apply (av_rescale_near_inf_overflow timestamp m (n * 1000000));
      [lia | lia | lia | exact Hover].
Qed.

End SeekFacts.

(** C4 at the fixture: the instance has read to the end of the file, its
    EOF flag is set, and a successful seek clears it; a seek the engine
    refuses leaves the flag set. *)
Lemma seek_eof_flag_witness :
  eof_file_ Fixture.video_at_eof = true /\
  fst (seek Fixture.engine Fixture.video_at_eof 2500000 0) = true /\
  eof_file_ (snd (seek Fixture.engine Fixture.video_at_eof 2500000 0)) = false /\
  fst (seek Fixture.engine Fixture.video_at_eof (-1000000) 0) = false /\
  eof_file_ (snd (seek Fixture.engine Fixture.video_at_eof (-1000000) 0)) = true.
Proof.
  split; [reflexivity|]. split; [reflexivity|]. split.
  - apply (proj1 (seek_eof_flag Fixture.engine Fixture.video_at_eof 2500000 0)).
    reflexivity.
  - split; [reflexivity|].
    apply (proj1 (proj1 (proj2 (seek_eof_flag Fixture.engine
                                  Fixture.video_at_eof (-1000000) 0))
                    eq_refl)).
Defined.

(** C7 at the fixture: 2.5 s in a 1/15360 time base is tick 38400. *)
Lemma seek_target_rescaled_witness :
  av_rescale_q 2500000 AV_TIME_BASE_Q
    (AVStream.time_base Fixture.video_stream) = 38400 /\
  exists seek_target : Z,
    seek_target = av_rescale_q 2500000 AV_TIME_BASE_Q
                    (AVStream.time_base Fixture.video_stream) /\
    seek Fixture.engine Fixture.video_on_av 2500000 0 =
    (let '(ret, ctx') :=
       av_seek_frame Fixture.engine Fixture.av_file
         (getStreamIndex Fixture.video_on_av) seek_target 0 in
     if ret <? 0
     then (false, set_format_ctx Fixture.video_on_av (Some ctx'))
     else (true, set_eof_file (set_format_ctx Fixture.video_on_av (Some ctx'))
                   false)) /\
    INT64_MIN <= seek_target <= INT64_MAX /\
    (rescale_round (Z.abs 2500000)
       (AVRational.den (AVStream.time_base Fixture.video_stream))
       (AVRational.num (AVStream.time_base Fixture.video_stream) * 1000000)
     <= INT64_MAX ->
     2 * Z.abs (seek_target
                * (AVRational.num (AVStream.time_base Fixture.video_stream)
                   * 1000000)
                - 2500000
                  * AVRational.den (AVStream.time_base Fixture.video_stream))
     <= AVRational.num (AVStream.time_base Fixture.video_stream) * 1000000) /\
    (INT64_MAX
     < rescale_round (Z.abs 2500000)
         (AVRational.den (AVStream.time_base Fixture.video_stream))
         (AVRational.num (AVStream.time_base Fixture.video_stream) * 1000000) ->
     seek_target = INT64_MIN).
Proof.
  split; [reflexivity|].
  apply (seek_target_rescaled Fixture.engine Fixture.video_on_av
           Fixture.av_file Fixture.video_stream 2500000 0);
    [reflexivity | vm_compute; discriminate | reflexivity
    | reflexivity | reflexivity
    | split; vm_compute; discriminate].
Defined.

(** C7 as stated fails where the converted timestamp does not fit 64
    bits: on a stream counted in nanoseconds, a seek to [INT64_MAX]
    microseconds succeeds, the target the engine receives (the echo engine
    leaves it in the session's duration field) is [INT64_MIN], and that is
    not within half a tick of [INT64_MAX * 1000000000 / 1000000]. *)
Lemma seek_target_unrepresentable :
  format_ctx_ Fixture.video_on_nano = Some Fixture.nano_file /\
  getStreamIndex Fixture.video_on_nano = 0 /\
  AVFormatContext.streams Fixture.nano_file 0 = Some Fixture.nano_stream /\
  fst (seek Fixture.echo_engine Fixture.video_on_nano INT64_MAX 0) = true /\
  option_map AVFormatContext.duration
    (format_ctx_ (snd (seek Fixture.echo_engine Fixture.video_on_nano
                         INT64_MAX 0)))
  = Some INT64_MIN /\
  ~ 2 * Z.abs (INT64_MIN
               * (AVRational.num (AVStream.time_base Fixture.nano_stream)
                  * 1000000)
               - INT64_MAX
                 * AVRational.den (AVStream.time_base Fixture.nano_stream))
    <= AVRational.num (AVStream.time_base Fixture.nano_stream) * 1000000.
Proof.
  repeat (split; [reflexivity|]).
  vm_compute. intros H. apply H. reflexivity.
Qed.

(** *** getDuration *)

Lemma stream_duration_nonneg (s : option AVStream.t) (us : Z) :
  stream_sane s -> stream_duration s = Some us -> 0 <= us.
Proof.
  destruct s as [st|]; simpl; [|discriminate].
  intros Hsane. destruct (AVStream.duration st =? AV_NOPTS_VALUE) eqn:Hunset;
    simpl; [discriminate|].
  apply Z.eqb_neq in Hunset. destruct Hsane as [Hno | (Hd & Hn & Hm & Hfits)];
    [contradiction|].
  intros [= <-]. unfold microseconds_of in Hfits.
  unfold av_rescale_q, AV_TIME_BASE_Q.
  cbn [AVRational.num AVRational.den]. rewrite Z.mul_1_l.
  apply av_rescale_near_inf_nonneg; [exact Hd | | exact Hm | exact Hfits].
  unfold AV_TIME_BASE. lia.
Qed.

(** [getDuration] answers a 64-bit value whenever the container's duration
    field holds one. *)
Lemma getDuration_int64 (d : Demuxer) :
  (forall ctx, format_ctx_ d = Some ctx ->
               INT64_MIN <= AVFormatContext.duration ctx <= INT64_MAX) ->
  INT64_MIN <= getDuration d <= INT64_MAX.
Proof.
  assert (Hzero : INT64_MIN <= 0 <= INT64_MAX)
    by (unfold INT64_MIN, INT64_MAX; lia).
  assert (Hs : forall s us, stream_duration s = Some us ->
                            INT64_MIN <= us <= INT64_MAX).
  { intros [st|] us; simpl; [|discriminate].
    destruct (negb (AVStream.duration st =? AV_NOPTS_VALUE)); [|discriminate].
    intros [= <-]. apply av_rescale_q_int64. }
  intros Hfield. unfold getDuration.
  destruct (format_ctx_ d) as [ctx|]; [|exact Hzero].
  destruct (negb (AVFormatContext.duration ctx =? AV_NOPTS_VALUE));
    [apply Hfield; reflexivity|].
  destruct (stream_duration (getAVStream d)) eqn:H1; [eapply Hs; exact H1|].
  destruct (stream_duration (video_stream_ d)) eqn:H2; [eapply Hs; exact H2|].
  destruct (stream_duration (audio_stream_ d)) eqn:H3; [eapply Hs; exact H3|].
  exact Hzero.
Qed.

Lemma first_available_nonneg (sources : list (option Z)) :
  Forall (fun s => forall v, s = Some v -> 0 <= v) sources ->
  0 <= first_available sources.
Proof.
  induction 1 as [|s rest Hs _ IH]; simpl; [lia|].
  destruct s as [v|]; [apply Hs; reflexivity | exact IH].
Qed.

(** C10. On an instance whose session handle is null, [getDuration]
    returns 0.  It is a function of the instance alone and returns nothing
    else, so the instance is as it was. *)
Theorem getDuration_closed (d : Demuxer) :
  format_ctx_ d = None -> getDuration d = 0.
Proof.
  intros Hctx. unfold getDuration. rewrite Hctx. reflexivity.
Qed.

Lemma getDuration_closed_witness :
  format_ctx_ (Demuxer_ctor AUDIO) = None /\
  getDuration (Demuxer_ctor AUDIO) = 0 /\
  getDuration (close Fixture.video_on_av) = 0.
Proof.
  split; [reflexivity|]. split.
  - apply (getDuration_closed (Demuxer_ctor AUDIO)). reflexivity.
  - reflexivity.
Defined.

(** C6, as amended.  On an open session [getDuration] is the first
    available of: the container's duration, the target stream's duration
    rescaled to microseconds, the video stream's, the audio stream's; and 0
    when none is set.  The value is passed on as the engine gives it: it
    is non-negative when the container's duration is unset or non-negative
    and each stream's duration is unset, or non-negative over a time base
    with non-negative numerator and positive denominator and still a
    64-bit value once rescaled to microseconds. *)
Theorem getDuration_first_available (d : Demuxer) (ctx : AVFormatContext.t) :
  format_ctx_ d = Some ctx ->
  getDuration d = first_available (duration_sources d ctx) /\
  ((AVFormatContext.duration ctx = AV_NOPTS_VALUE \/
    0 <= AVFormatContext.duration ctx) ->
   stream_sane (video_stream_ d) ->
   stream_sane (audio_stream_ d) ->
   0 <= getDuration d).
Proof.
  intros Hctx.
  assert (Heq : getDuration d = first_available (duration_sources d ctx)).
  { unfold getDuration, duration_sources, container_duration. rewrite Hctx.
    destruct (AVFormatContext.duration ctx =? AV_NOPTS_VALUE); simpl;
      [|reflexivity].
    destruct (stream_duration (getAVStream d)); [reflexivity|].
    destruct (stream_duration (video_stream_ d)); [reflexivity|].
    destruct (stream_duration (audio_stream_ d)); reflexivity. }
  split; [exact Heq|]. intros Hc Hv Ha. rewrite Heq.
  apply first_available_nonneg. unfold duration_sources.
  repeat constructor.
  - unfold container_duration. intros v.
    destruct (AVFormatContext.duration ctx =? AV_NOPTS_VALUE) eqn:Hunset;
      [discriminate|].
    apply Z.eqb_neq in Hunset. intros [= <-]. destruct Hc; [contradiction|lia].
  - intros v. apply stream_duration_nonneg.
    unfold getAVStream. destruct (is_video (type_ d)); assumption.
  - intros v. apply stream_duration_nonneg. exact Hv.
  - intros v. apply stream_duration_nonneg. exact Ha.
Qed.

(** C6 at the fixture: with a container duration the answer is that
    duration; without one, the AUDIO instance answers its own stream's five
    seconds. *)
Lemma getDuration_first_available_witness :
  format_ctx_ Fixture.audio_on_untimed = Some Fixture.untimed_file /\
  getDuration Fixture.audio_on_untimed = 5000000 /\
  getDuration Fixture.audio_on_untimed
  = first_available
      (duration_sources Fixture.audio_on_untimed Fixture.untimed_file) /\
  0 <= getDuration Fixture.audio_on_untimed.
Proof.
  split; [reflexivity|]. split; [reflexivity|].
  pose proof (getDuration_first_available Fixture.audio_on_untimed
                Fixture.untimed_file eq_refl) as [Heq Hpos].
  split; [exact Heq|].
  apply Hpos.
  - left. reflexivity.
  - right. vm_compute. repeat split; discriminate.
  - right. vm_compute. repeat split; discriminate.
Defined.

(** C6 as stated fails where the engine reports a negative duration: the
    session is open and [getDuration] passes the value on. *)
Lemma getDuration_negative :
  format_ctx_ Fixture.video_on_negative = Some Fixture.negative_file /\
  getDuration Fixture.video_on_negative = -1 /\
  ~ 0 <= getDuration Fixture.video_on_negative.
Proof.
  split; [reflexivity|]. split; [reflexivity|].
  vm_compute. intros H. apply H. reflexivity.
Qed.

(** A duration that is non-negative in its own time base and does not fit
    64 bits in microseconds is answered as [INT64_MIN]. *)
Example getDuration_unrepresentable :
  video_stream_ Fixture.video_on_long = Some Fixture.long_stream /\
  INT64_MAX < microseconds_of Fixture.long_stream /\
  getDuration Fixture.video_on_long = INT64_MIN.
Proof. repeat split. Qed.

(** *** readPacket *)

Lemma with_frames_frames (ctx : AVFormatContext.t) :
  AVFormatContext.with_frames ctx (AVFormatContext.frames ctx) = ctx.
Proof. destruct ctx; reflexivity. Qed.

Lemma AVERROR_EOF_neg : AVERROR_EOF < 0.
Proof. reflexivity. Qed.

(** The loop reads its session argument only through the stream table and
    the duration, which no read changes. *)
Lemma readPacket_loop_session (d : Demuxer) (target : Z)
    (ctx : AVFormatContext.t) (fs pending : list Frame) (h : PacketHeap) :
  readPacket_loop d target (AVFormatContext.with_frames ctx fs) h pending
  = readPacket_loop d target ctx h pending.
Proof.
  revert h. induction pending as [|[ret pkt] rest IH]; intros h;
    [reflexivity|].
  cbn [readPacket_loop av_packet_alloc]. rewrite IH. reflexivity.
Qed.

(** The loop in terms of [av_read_frame]: one iteration of the source. *)
Lemma readPacket_loop_step (d : Demuxer) (target : Z)
    (ctx : AVFormatContext.t) (h : PacketHeap) :
  readPacket_loop d target ctx h (AVFormatContext.frames ctx) =
  (let '(pkt0, h1) := av_packet_alloc h in
   let '(ret, pkt, ctx') := av_read_frame ctx pkt0 in
   let d1 := set_format_ctx d (Some ctx') in
   if ret <? 0 then
     {| packet := None;
        self := if ret =? AVERROR_EOF then set_eof_file d1 true else d1;
        heap := av_packet_free h1 |}
   else if AVPacket.stream_index pkt =? target then
     {| packet := Some pkt; self := d1; heap := h1 |}
   else
     readPacket_loop d target ctx' (av_packet_free h1)
       (AVFormatContext.frames ctx')).
Proof.
  unfold av_read_frame. cbn [av_packet_alloc].
  destruct (AVFormatContext.frames ctx) as [|[ret pkt] rest] eqn:Hfs.
  - cbn [readPacket_loop av_packet_alloc]. rewrite <- Hfs, with_frames_frames.
    reflexivity.
  - cbn [readPacket_loop av_packet_alloc].
    rewrite readPacket_loop_session. reflexivity.
Qed.

Lemma readPacket_loop_reads (d : Demuxer) (target : Z)
    (ctx : AVFormatContext.t) (pending : list Frame) (h : PacketHeap) :
  exists skipped ret pkt ctx',
    loop_reads target (AVFormatContext.with_frames ctx pending)
      skipped ret pkt ctx' /\
    (0 <= ret -> AVPacket.stream_index pkt = target) /\
    readPacket_loop d target ctx h pending = loop_result d h ret pkt ctx'.
Proof.
  revert h. induction pending as [|[ret pkt] rest IH]; intros h.
  - exists [], AVERROR_EOF, blank_packet, (AVFormatContext.with_frames ctx []).
    split; [|split].
    + apply loop_reads_last; [reflexivity | left; reflexivity].
    + intros H. pose proof AVERROR_EOF_neg. lia.
    + reflexivity.
  - cbn [readPacket_loop av_packet_alloc].
    destruct (ret <? 0) eqn:Hret.
    + exists [], ret, pkt, (AVFormatContext.with_frames ctx rest).
      apply Z.ltb_lt in Hret. split; [|split].
      * apply loop_reads_last; [reflexivity | left; exact Hret].
      * intros H. lia.
      * unfold loop_result. apply Z.ltb_lt in Hret. rewrite Hret.
        destruct (ret =? AVERROR_EOF); reflexivity.
    + apply Z.ltb_ge in Hret.
      destruct (AVPacket.stream_index pkt =? target) eqn:Hidx.
      * apply Z.eqb_eq in Hidx.
        exists [], ret, pkt, (AVFormatContext.with_frames ctx rest).
        split; [|split].
        -- apply loop_reads_last; [reflexivity | right; exact Hidx].
        -- intros _. exact Hidx.
        -- unfold loop_result. apply Z.ltb_ge in Hret. rewrite Hret.
           replace (ret =? AVERROR_EOF) with false; [reflexivity|].
           symmetry. apply Z.eqb_neq. apply Z.ltb_ge in Hret.
           pose proof AVERROR_EOF_neg. lia.
      * apply Z.eqb_neq in Hidx.
        destruct (IH (av_packet_free
                        {| live := S (live h);
                           peak := Nat.max (peak h) (S (live h)) |}))
          as (skipped & ret' & pkt' & ctx' & Hreads & Hmatch & Hloop).
        exists (pkt :: skipped), ret', pkt', ctx'. split; [|split].
        -- eapply loop_reads_skip; [reflexivity | exact Hret | exact Hidx
                                    | exact Hreads].
        -- exact Hmatch.
        -- rewrite Hloop. unfold loop_result, av_packet_free.
           cbn [live peak Nat.pred]. f_equal. f_equal.
           apply Nat.max_l. apply Nat.le_max_r.
Qed.

Lemma loop_reads_functional (target : Z) (ctx : AVFormatContext.t)
    (s1 s2 : list AVPacket.t) (r1 r2 : Z) (p1 p2 : AVPacket.t)
    (c1 c2 : AVFormatContext.t) :
  loop_reads target ctx s1 r1 p1 c1 ->
  loop_reads target ctx s2 r2 p2 c2 ->
  s1 = s2 /\ r1 = r2 /\ p1 = p2 /\ c1 = c2.
Proof.
  intros H1. revert s2 r2 p2 c2.
  induction H1 as [ctx ret pkt ctx' Hread Hstop
                  | ctx ret pkt ctx1 skipped ret' pkt' ctx' Hread Hok Hne _ IH];
    intros s2 r2 p2 c2 H2; inversion H2; subst;
    match goal with
    | Ha : av_read_frame ?c _ = _, Hb : av_read_frame ?c _ = _ |- _ =>
      rewrite Ha in Hb; injection Hb as -> -> ->
    end.
  - repeat split.
  - exfalso. destruct Hstop; [lia | contradiction].
  - exfalso.
    match goal with Hs : _ \/ _ |- _ => destruct Hs; [lia | contradiction] end.
  - match goal with Hr : loop_reads _ _ _ _ _ _ |- _ =>
      destruct (IH _ _ _ _ Hr) as (-> & -> & -> & ->)
    end.
    repeat split.
Qed.

Lemma loop_reads_skipped (target : Z) (ctx : AVFormatContext.t)
    (skipped : list AVPacket.t) (ret : Z) (pkt : AVPacket.t)
    (ctx' : AVFormatContext.t) :
  loop_reads target ctx skipped ret pkt ctx' ->
  Forall (fun q => AVPacket.stream_index q <> target) skipped.
Proof.
  induction 1; constructor; assumption.
Qed.

(** [readPacket] on an open instance with a target stream. *)
Lemma readPacket_open (d : Demuxer) (ctx : AVFormatContext.t) (h : PacketHeap) :
  format_ctx_ d = Some ctx ->
  0 <= getStreamIndex d ->
  exists skipped ret pkt ctx',
    loop_reads (getStreamIndex d) ctx skipped ret pkt ctx' /\
    (0 <= ret -> AVPacket.stream_index pkt = getStreamIndex d) /\
    readPacket d h = loop_result d h ret pkt ctx'.
Proof.
  intros Hctx Hidx. unfold readPacket. rewrite Hctx.
  replace (getStreamIndex d <? 0) with false
    by (symmetry; apply Z.ltb_ge; exact Hidx).
  destruct (readPacket_loop_reads d (getStreamIndex d) ctx
              (AVFormatContext.frames ctx) h)
    as (skipped & ret & pkt & ctx' & Hreads & Hmatch & Hloop).
  rewrite with_frames_frames in Hreads.
  exists skipped, ret, pkt, ctx'. repeat split; assumption.
Qed.

Lemma readPacket_not_ready (d : Demuxer) (h : PacketHeap) :
  format_ctx_ d = None \/ getStreamIndex d < 0 ->
  readPacket d h = {| packet := None; self := d; heap := h |}.
Proof.
  intros Hcase. unfold readPacket. destruct (format_ctx_ d); [|reflexivity].
  destruct Hcase as [Hnone|Hneg]; [discriminate|].
  apply Z.ltb_lt in Hneg. rewrite Hneg. reflexivity.
Qed.

Lemma loop_result_index (d : Demuxer) (h : PacketHeap) (ret : Z)
    (pkt : AVPacket.t) (ctx' : AVFormatContext.t) :
  getStreamIndex (self (loop_result d h ret pkt ctx')) = getStreamIndex d.
Proof.
  unfold loop_result. cbn [self]. destruct (ret =? AVERROR_EOF); reflexivity.
Qed.

(** C1. A packet that [readPacket] returns belongs to the target stream:
    its stream index is [getStreamIndex()], before and after the call.  On
    an open instance with a target stream, the packets read before the one
    that ends the loop all belong to other streams; none of them is the
    result; and each is freed before the next is allocated: the call leaves
    allocated exactly the packet it returns, and never holds more than one
    at a time.  (An instance has no field that could hold a packet.) *)
Theorem readPacket_only_target (d : Demuxer) (h : PacketHeap) :
  (forall p, packet (readPacket d h) = Some p ->
     AVPacket.stream_index p = getStreamIndex d /\
     getStreamIndex (self (readPacket d h)) = getStreamIndex d) /\
  (forall ctx, format_ctx_ d = Some ctx -> 0 <= getStreamIndex d ->
     exists skipped ret pkt ctx',
       loop_reads (getStreamIndex d) ctx skipped ret pkt ctx' /\
       Forall (fun q => AVPacket.stream_index q <> getStreamIndex d) skipped /\
       packet (readPacket d h) = (if ret <? 0 then None else Some pkt) /\
       format_ctx_ (self (readPacket d h)) = Some ctx' /\
       live (heap (readPacket d h))
       = (match packet (readPacket d h) with
          | Some _ => S (live h)
          | None => live h
          end) /\
       peak (heap (readPacket d h)) = Nat.max (peak h) (S (live h))).
Proof.
  split.
  - intros p Hp.
    destruct (format_ctx_ d) as [ctx|] eqn:Hctx.
    + destruct (Z.lt_ge_cases (getStreamIndex d) 0) as [Hneg|Hidx].
      * rewrite readPacket_not_ready in Hp by (right; exact Hneg).
        discriminate Hp.
      * destruct (readPacket_open d ctx h Hctx Hidx)
          as (skipped & ret & pkt & ctx' & _ & Hmatch & Hres).
        rewrite Hres in *. rewrite loop_result_index. split; [|reflexivity].
        unfold loop_result in Hp. cbn [packet] in Hp.
        destruct (ret <? 0) eqn:Hret; [discriminate|].
        injection Hp as <-. apply Hmatch. apply Z.ltb_ge. exact Hret.
    + rewrite readPacket_not_ready in Hp by (left; exact Hctx).
      discriminate Hp.
  - intros ctx Hctx Hidx.
    destruct (readPacket_open d ctx h Hctx Hidx)
      as (skipped & ret & pkt & ctx' & Hreads & _ & Hres).
    exists skipped, ret, pkt, ctx'. rewrite Hres. unfold loop_result.
    cbn [packet self heap live peak].
    split; [exact Hreads|]. split; [eapply loop_reads_skipped; exact Hreads|].
    split; [reflexivity|]. split.
    + destruct (ret =? AVERROR_EOF); reflexivity.
    + destruct (ret <? 0); split; reflexivity.
Qed.

(** C1 at the fixture: the VIDEO instance on the interleaved file skips
    the audio packet in front and returns the first video packet. *)
Lemma readPacket_only_target_witness :
  packet (readPacket Fixture.video_on_av Fixture.empty_heap)
  = Some (Fixture.pkt 0 0) /\
  AVPacket.stream_index (Fixture.pkt 0 0) = getStreamIndex Fixture.video_on_av /\
  heap (readPacket Fixture.video_on_av Fixture.empty_heap)
  = {| live := 1; peak := 1 |}.
Proof.
  split; [reflexivity|]. split; [|reflexivity].
  apply (proj1 (readPacket_only_target Fixture.video_on_av Fixture.empty_heap)
           (Fixture.pkt 0 0) eq_refl).
Defined.

(** C2. [readPacket] returns null exactly when (a) the instance is not
    open, or (b) the target index is negative, or the read that ends the
    loop reports (c) end of file or (d) another error.  In case (c), and in
    no other, the EOF flag is set to true; in every other case, (d) among
    them, the flag is as it was. *)
Theorem readPacket_null_cases (d : Demuxer) (h : PacketHeap) :
  (packet (readPacket d h) = None <->
   format_ctx_ d = None \/
   getStreamIndex d < 0 \/
   last_read_returns d (fun ret => ret = AVERROR_EOF) \/
   last_read_returns d (fun ret => ret < 0 /\ ret <> AVERROR_EOF)) /\
  (last_read_returns d (fun ret => ret = AVERROR_EOF) ->
   eof_file_ (self (readPacket d h)) = true) /\
  (~ last_read_returns d (fun ret => ret = AVERROR_EOF) ->
   eof_file_ (self (readPacket d h)) = eof_file_ d) /\
  (last_read_returns d (fun ret => ret < 0 /\ ret <> AVERROR_EOF) ->
   eof_file_ (self (readPacket d h)) = eof_file_ d).
Proof.
  assert (Hclosed : format_ctx_ d = None \/ getStreamIndex d < 0 ->
                    forall P, ~ last_read_returns d P).
  { intros Hcase P (ctx & sk & ret & pkt & ctx' & Hctx & Hidx & _).
    destruct Hcase as [Hnone|Hneg]; [congruence | lia]. }
  assert (Hopen : forall ctx, format_ctx_ d = Some ctx ->
                    0 <= getStreamIndex d ->
                    exists ret pkt ctx',
                      readPacket d h = loop_result d h ret pkt ctx' /\
                      forall P, last_read_returns d P <-> P ret).
  { intros ctx Hctx Hidx.
    destruct (readPacket_open d ctx h Hctx Hidx)
      as (skipped & ret & pkt & ctx' & Hreads & _ & Hres).
    exists ret, pkt, ctx'. split; [exact Hres|]. intros P. split.
    - intros (ctx2 & sk2 & ret2 & pkt2 & ctx2' & Hctx2 & _ & Hreads2 & HP).
      rewrite Hctx in Hctx2. injection Hctx2 as <-.
      destruct (loop_reads_functional _ _ _ _ _ _ _ _ _ _ Hreads Hreads2)
        as (_ & -> & _). exact HP.
    - intros HP. exists ctx, skipped, ret, pkt, ctx'. repeat split; assumption. }
  destruct (format_ctx_ d) as [ctx|] eqn:Hctx.
  - destruct (Z.lt_ge_cases (getStreamIndex d) 0) as [Hneg|Hidx].
    + rewrite readPacket_not_ready by (right; exact Hneg). cbn [packet self].
      repeat split; try tauto.
      all: intros Hlast; exfalso; eapply Hclosed; [right; exact Hneg|];
        exact Hlast.
    + destruct (Hopen ctx eq_refl Hidx) as (ret & pkt & ctx' & Hres & Hlast).
      rewrite Hres. unfold loop_result. cbn [packet self].
      rewrite !Hlast. pose proof AVERROR_EOF_neg as Heof.
      destruct (ret =? AVERROR_EOF) eqn:Hret;
        [apply Z.eqb_eq in Hret | apply Z.eqb_neq in Hret];
        (destruct (ret <? 0) eqn:Hlt;
         [apply Z.ltb_lt in Hlt | apply Z.ltb_ge in Hlt]);
        cbn [eof_file_ set_eof_file set_format_ctx];
        repeat split; try tauto; try lia; try discriminate.
      * intros [H|[H|[H|H]]]; [discriminate | lia | lia | lia].
  - rewrite readPacket_not_ready by (left; exact Hctx). cbn [packet self].
    repeat split; try tauto.
    all: intros Hlast; exfalso; eapply Hclosed; [left; reflexivity|];
      exact Hlast.
Qed.

(** C2 at the fixture: both video packets are read, the container is
    exhausted, the next read ends at end of file; [readPacket] returns null
    and sets the flag. *)
Lemma readPacket_null_cases_witness :
  last_read_returns Fixture.video_after_two (fun ret => ret = AVERROR_EOF) /\
  eof_file_ Fixture.video_after_two = false /\
  packet (readPacket Fixture.video_after_two Fixture.empty_heap) = None /\
  eof_file_ (self (readPacket Fixture.video_after_two Fixture.empty_heap))
  = true.
Proof.
  assert (Hlast : last_read_returns Fixture.video_after_two
                    (fun ret => ret = AVERROR_EOF)).
  { exists (AVFormatContext.with_frames Fixture.av_file []), [], AVERROR_EOF,
      blank_packet, (AVFormatContext.with_frames Fixture.av_file []).
    split; [reflexivity|]. split; [vm_compute; discriminate|].
    split; [|reflexivity].
    apply loop_reads_last; [reflexivity | left; reflexivity]. }
  split; [exact Hlast|]. split; [reflexivity|].
  pose proof (readPacket_null_cases Fixture.video_after_two Fixture.empty_heap)
    as (Hnull & Hset & _).
  split.
  - apply Hnull. right. right. left. exact Hlast.
  - apply Hset. exact Hlast.
Defined.

(** *** The handle and index invariant *)

Lemma handles_consistent_ctor (type : MediaType) :
  handles_consistent (Demuxer_ctor type).
Proof.
  unfold handles_consistent. simpl. repeat split; try tauto; try lia.
Qed.

Lemma readPacket_keeps_handles (d : Demuxer) (h : PacketHeap) :
  video_stream_ (self (readPacket d h)) = video_stream_ d /\
  audio_stream_ (self (readPacket d h)) = audio_stream_ d /\
  video_stream_index_ (self (readPacket d h)) = video_stream_index_ d /\
  audio_stream_index_ (self (readPacket d h)) = audio_stream_index_ d /\
  type_ (self (readPacket d h)) = type_ d /\
  (format_ctx_ (self (readPacket d h)) = None -> format_ctx_ d = None).
Proof.
  destruct (format_ctx_ d) as [ctx|] eqn:Hctx.
  - destruct (Z.lt_ge_cases (getStreamIndex d) 0) as [Hneg|Hidx].
    + rewrite readPacket_not_ready by (right; exact Hneg). cbn [self].
      repeat split. intros H. congruence.
    + destruct (readPacket_open d ctx h Hctx Hidx)
        as (skipped & ret & pkt & ctx' & _ & _ & Hres).
      rewrite Hres. unfold loop_result. cbn [self].
      destruct (ret =? AVERROR_EOF); cbn; repeat split; discriminate.
  - rewrite readPacket_not_ready by (left; exact Hctx). cbn [self].
    repeat split.
Qed.

Lemma seek_keeps_handles (eng : ContainerEngine) (d : Demuxer)
    (timestamp flags : Z) :
  video_stream_ (snd (seek eng d timestamp flags)) = video_stream_ d /\
  audio_stream_ (snd (seek eng d timestamp flags)) = audio_stream_ d /\
  video_stream_index_ (snd (seek eng d timestamp flags))
  = video_stream_index_ d /\
  audio_stream_index_ (snd (seek eng d timestamp flags))
  = audio_stream_index_ d /\
  type_ (snd (seek eng d timestamp flags)) = type_ d /\
  (format_ctx_ (snd (seek eng d timestamp flags)) = None ->
   format_ctx_ d = None).
Proof.
  unfold seek. destruct (format_ctx_ d) as [ctx|] eqn:Hctx;
    [|simpl; repeat split; assumption].
  destruct (getStreamIndex d <? 0);
    [simpl; repeat split; congruence|].
  destruct (AVFormatContext.streams ctx (getStreamIndex d)) as [stream|];
    [|simpl; repeat split; congruence].
  destruct (av_seek_frame eng ctx (getStreamIndex d) _ flags) as [ret ctx'].
  destruct (ret <? 0); simpl; repeat split; discriminate.
Qed.

Lemma handles_consistent_open (eng : ContainerEngine) (d : Demuxer)
    (filename : string) :
  best_stream_in_table eng ->
  handles_consistent d ->
  handles_consistent (snd (open eng d filename)).
Proof.
  intros Hbest Hd. unfold open.
  destruct (empty filename); [exact Hd|].
  set (d1 := match format_ctx_ d with Some _ => close d | None => d end).
  assert (Hd1 : handles_consistent d1 /\
                video_stream_ d1 = None /\ audio_stream_ d1 = None).
  { subst d1. destruct (format_ctx_ d) eqn:Hctx.
    - rewrite close_is_ctor. split; [apply handles_consistent_ctor|].
      split; reflexivity.
    - split; [exact Hd|]. apply Hd. exact Hctx. }
  destruct Hd1 as (Hinv & Hv & Ha).
  destruct (avformat_open_input eng filename) as [err|ctx0]; [exact Hinv|].
  destruct (avformat_find_stream_info eng ctx0) as [ret ctx].
  destruct (ret <? 0).
  - simpl snd. rewrite close_is_ctor. apply handles_consistent_ctor.
  - simpl snd.
    pose proof (Hbest ctx AVMEDIA_TYPE_VIDEO) as Hbv.
    pose proof (Hbest ctx AVMEDIA_TYPE_AUDIO) as Hba.
    unfold handles_consistent.
    destruct (0 <=? av_find_best_stream eng ctx AVMEDIA_TYPE_VIDEO) eqn:Hvi;
      [apply Z.leb_le in Hvi | apply Z.leb_gt in Hvi];
      (destruct (0 <=? av_find_best_stream eng ctx AVMEDIA_TYPE_AUDIO) eqn:Hai;
       [apply Z.leb_le in Hai | apply Z.leb_gt in Hai]);
      cbn; rewrite ?Hv, ?Ha; repeat split; try discriminate; try tauto;
      try lia; intros; try lia; try congruence; auto.
Qed.

Lemma reachable_consistent (eng : ContainerEngine) (d : Demuxer) :
  best_stream_in_table eng -> reachable eng d -> handles_consistent d.
Proof.
  intros Hbest Hreach.
  induction Hreach as [type | d filename _ IH | d h _ IH
                      | d timestamp flags _ IH | d _ IH].
  - apply handles_consistent_ctor.
  - apply handles_consistent_open; assumption.
  - destruct (readPacket_keeps_handles d h) as (Hv & Ha & Hvi & Hai & _ & Hc).
    unfold handles_consistent in *. rewrite Hv, Ha, Hvi, Hai.
    destruct IH as (IHv & IHa & IHc). repeat split; try tauto.
    all: intros Hnone; apply IHc; apply Hc; exact Hnone.
  - destruct (seek_keeps_handles eng d timestamp flags)
      as (Hv & Ha & Hvi & Hai & _ & Hc).
    unfold handles_consistent in *. rewrite Hv, Ha, Hvi, Hai.
    destruct IH as (IHv & IHa & IHc). repeat split; try tauto.
    all: intros Hnone; apply IHc; apply Hc; exact Hnone.
  - rewrite close_is_ctor. apply handles_consistent_ctor.
Qed.

(** C9. Over an engine whose [av_find_best_stream] answers a negative code
    or the index of a stream of the table, every state reached from the
    constructor through [open], [readPacket], [seek] and [close] has its
    video handle non-null exactly when its video index is non-negative,
    and the same for audio; hence [getAVStream()] is non-null exactly when
    [getStreamIndex()] is non-negative. *)
Theorem handles_match_indices (eng : ContainerEngine) (d : Demuxer) :
  best_stream_in_table eng ->
  reachable eng d ->
  (video_stream_ d <> None <-> 0 <= video_stream_index_ d) /\
  (audio_stream_ d <> None <-> 0 <= audio_stream_index_ d) /\
  (getAVStream d <> None <-> 0 <= getStreamIndex d).
Proof.
  intros Hbest Hreach.
  destruct (reachable_consistent eng d Hbest Hreach) as (Hv & Ha & _).
  split; [exact Hv|]. split; [exact Ha|].
  unfold getAVStream, getStreamIndex. destruct (is_video (type_ d)); assumption.
Qed.

Lemma fixture_best_stream_in_table : best_stream_in_table Fixture.engine.
Proof.
  intros ctx kind. destruct kind; simpl.
  - destruct (AVFormatContext.streams ctx 0) eqn:Hs; [|lia].
    intros _. rewrite Hs. discriminate.
  - destruct (AVFormatContext.streams ctx 1) eqn:Hs; [|lia].
    intros _. rewrite Hs. discriminate.
Defined.

(** C9 at the fixture: the AUDIO instance on the video-only container,
    after a read and a failed seek, has no target handle and a negative
    target index, while its video handle and index are both set. *)
Lemma handles_match_indices_witness :
  best_stream_in_table Fixture.engine /\
  reachable Fixture.engine
    (snd (seek Fixture.engine
            (self (readPacket Fixture.audio_on_video_only Fixture.empty_heap))
            0 0)) /\
  (getAVStream
     (snd (seek Fixture.engine
             (self (readPacket Fixture.audio_on_video_only Fixture.empty_heap))
             0 0)) <> None
   <-> 0 <= getStreamIndex
             (snd (seek Fixture.engine
                     (self (readPacket Fixture.audio_on_video_only
                              Fixture.empty_heap))
                     0 0))).
Proof.
  assert (Hreach : reachable Fixture.engine
                     (snd (seek Fixture.engine
                             (self (readPacket Fixture.audio_on_video_only
                                      Fixture.empty_heap))
                             0 0))).
  { apply reach_seek. apply reach_readPacket. apply reach_open.
    apply reach_ctor. }
  split; [exact fixture_best_stream_in_table|]. split; [exact Hreach|].
  apply (handles_match_indices Fixture.engine _ fixture_best_stream_in_table
           Hreach).
Defined.

(** *** The fixture, run *)

Example open_unknown_path :
  open Fixture.engine (Demuxer_ctor VIDEO) Fixture.x_path
  = (false, Demuxer_ctor VIDEO).
Proof. reflexivity. Qed.

Example read_video_in_order :
  packet (readPacket Fixture.video_on_av Fixture.empty_heap)
  = Some (Fixture.pkt 0 0) /\
  packet (readPacket
            (self (readPacket Fixture.video_on_av Fixture.empty_heap))
            Fixture.empty_heap)
  = Some (Fixture.pkt 0 512) /\
  isEOF Fixture.video_after_two = false /\
  isEOF Fixture.video_at_eof = true.
Proof. repeat split. Qed.

Example read_audio_in_order :
  packet (readPacket Fixture.audio_on_av Fixture.empty_heap)
  = Some (Fixture.pkt 1 0) /\
  packet (readPacket
            (self (readPacket Fixture.audio_on_av Fixture.empty_heap))
            Fixture.empty_heap)
  = Some (Fixture.pkt 1 1024).
Proof. repeat split. Qed.

Example read_without_target :
  readPacket Fixture.audio_on_video_only Fixture.empty_heap
  = {| packet := None; self := Fixture.audio_on_video_only;
       heap := Fixture.empty_heap |} /\
  isEOF Fixture.audio_on_video_only = false.
Proof. repeat split. Qed.

Example duration_of_fixture :
  getDuration Fixture.video_on_av = 5000000.
Proof. reflexivity. Qed.

Example rescale_rounds_half_away :
  av_rescale_q 1 AV_TIME_BASE_Q
    {| AVRational.num := 1; AVRational.den := 1500000 |} = 2 /\
  av_rescale_q (-1) AV_TIME_BASE_Q
    {| AVRational.num := 1; AVRational.den := 1500000 |} = -2 /\
  av_rescale_q 1 AV_TIME_BASE_Q
    {| AVRational.num := 1; AVRational.den := 1400000 |} = 1.
Proof. repeat split. Qed.

(** ** Further properties of the demultiplexer *)

Lemma open_keeps_type (eng : ContainerEngine) (d : Demuxer)
    (filename : string) :
  type_ (snd (open eng d filename)) = type_ d.
Proof.
  unfold open. destruct (empty filename); [reflexivity|].
  assert (Hd1 : type_ (match format_ctx_ d with
                       | Some _ => close d
                       | None => d
                       end) = type_ d).
  { destruct (format_ctx_ d); [rewrite close_is_ctor|]; reflexivity. }
  destruct (avformat_open_input eng filename) as [err|ctx0]; [exact Hd1|].
  destruct (avformat_find_stream_info eng ctx0) as [ret ctx].
  destruct (ret <? 0); [rewrite close_is_ctor; exact Hd1|].
  destruct (0 <=? av_find_best_stream eng ctx AVMEDIA_TYPE_VIDEO);
    destruct (0 <=? av_find_best_stream eng ctx AVMEDIA_TYPE_AUDIO);
    exact Hd1.
Qed.

(** X1. No operation changes the media kind given to the constructor, and
    neither [readPacket] nor [seek] changes which stream is the target:
    [getStreamIndex()] and [getAVStream()] answer after them what they
    answered before. *)
Theorem kind_and_target_stable (eng : ContainerEngine) (d : Demuxer)
    (filename : string) (h : PacketHeap) (timestamp flags : Z) :
  type_ (snd (open eng d filename)) = type_ d /\
  type_ (close d) = type_ d /\
  type_ (self (readPacket d h)) = type_ d /\
  type_ (snd (seek eng d timestamp flags)) = type_ d /\
  getStreamIndex (self (readPacket d h)) = getStreamIndex d /\
  getAVStream (self (readPacket d h)) = getAVStream d /\
  getStreamIndex (snd (seek eng d timestamp flags)) = getStreamIndex d /\
  getAVStream (snd (seek eng d timestamp flags)) = getAVStream d.
Proof.
  destruct (readPacket_keeps_handles d h) as (Rv & Ra & Rvi & Rai & Rt & _).
  destruct (seek_keeps_handles eng d timestamp flags)
    as (Sv & Sa & Svi & Sai & St & _).
  unfold getStreamIndex, getAVStream.
  rewrite Rv, Ra, Rvi, Rai, Rt, Sv, Sa, Svi, Sai, St, close_is_ctor.
  repeat split. apply open_keeps_type.
Qed.

Lemma closed_is_default (eng : ContainerEngine) (d : Demuxer) :
  reachable eng d -> format_ctx_ d = None -> d = Demuxer_ctor (type_ d).
Proof.
  intros Hreach.
  induction Hreach as [type | d filename _ IH | d h _ IH
                      | d timestamp flags _ IH | d _ IH].
  - reflexivity.
  - rewrite open_keeps_type. unfold open.
    destruct (empty filename); [exact IH|].
    destruct (avformat_open_input eng filename) as [err|ctx0].
    + simpl snd. destruct (format_ctx_ d) eqn:Hctx;
        [intros _; apply close_is_ctor | intros _; apply IH; reflexivity].
    + destruct (avformat_find_stream_info eng ctx0) as [ret ctx].
      destruct (ret <? 0).
      * intros _. simpl snd. rewrite close_is_ctor.
        destruct (format_ctx_ d); [rewrite close_is_ctor|]; reflexivity.
      * destruct (0 <=? av_find_best_stream eng ctx AVMEDIA_TYPE_VIDEO);
          destruct (0 <=? av_find_best_stream eng ctx AVMEDIA_TYPE_AUDIO);
          discriminate.
  - intros Hnone.
    destruct (readPacket_keeps_handles d h) as (_ & _ & _ & _ & _ & Hc).
    specialize (Hc Hnone).
    rewrite readPacket_not_ready in * by (left; exact Hc). exact (IH Hc).
  - intros Hnone.
    destruct (seek_keeps_handles eng d timestamp flags)
      as (_ & _ & _ & _ & _ & Hc).
    specialize (Hc Hnone).
    assert (Hseek : seek eng d timestamp flags = (false, d)).
    { unfold seek. rewrite Hc. reflexivity. }
    rewrite Hseek. exact (IH Hc).
  - intros _. rewrite !close_is_ctor. reflexivity.
Qed.

(** X2. A reachable instance whose session handle is null is exactly as
    the constructor left it: failed opens and reads or seeks on a closed
    instance leave nothing behind.  So it reports no end of file, target
    index -1, no target stream and duration 0. *)
Theorem closed_instance_is_fresh (eng : ContainerEngine) (d : Demuxer) :
  reachable eng d ->
  getFormatContext d = None ->
  d = Demuxer_ctor (type_ d) /\
  isEOF d = false /\
  getStreamIndex d = -1 /\
  getAVStream d = None /\
  getDuration d = 0.
Proof.
  intros Hreach Hnone. pose proof (closed_is_default eng d Hreach Hnone) as Heq.
  split; [exact Heq|]. rewrite Heq. destruct (type_ d); repeat split.
Qed.

Lemma closed_instance_is_fresh_witness :
  reachable Fixture.engine
    (snd (seek Fixture.engine
            (snd (open Fixture.engine Fixture.video_on_av Fixture.x_path))
            0 0)) /\
  snd (seek Fixture.engine
         (snd (open Fixture.engine Fixture.video_on_av Fixture.x_path)) 0 0)
  = Demuxer_ctor VIDEO.
Proof.
  assert (Hreach : reachable Fixture.engine
                     (snd (seek Fixture.engine
                             (snd (open Fixture.engine Fixture.video_on_av
                                     Fixture.x_path))
                             0 0))).
  { apply reach_seek. apply reach_open. apply reach_open. apply reach_ctor. }
  split; [exact Hreach|].
  apply (proj1 (closed_instance_is_fresh Fixture.engine _ Hreach eq_refl)).
Defined.

Lemma open_from_closed (eng : ContainerEngine) (d : Demuxer)
    (filename : string) :
  empty filename = false ->
  (format_ctx_ d = None -> d = Demuxer_ctor (type_ d)) ->
  open eng d filename = open eng (Demuxer_ctor (type_ d)) filename.
Proof.
  intros Hne Hfresh. unfold open. rewrite Hne. cbn [format_ctx_ Demuxer_ctor].
  replace (match format_ctx_ d with Some _ => close d | None => d end)
    with (Demuxer_ctor (type_ d)); [reflexivity|].
  destruct (format_ctx_ d); [rewrite close_is_ctor; reflexivity|].
  symmetry. apply Hfresh. reflexivity.
Qed.

(** X3. What [open] does on a non-empty path does not depend on what the
    instance went through before: on any reachable instance, open or
    closed, it returns what it returns on a freshly constructed instance
    of the same kind, and leaves the same state. *)
Theorem open_forgets_history (eng : ContainerEngine) (d : Demuxer)
    (filename : string) :
  reachable eng d ->
  empty filename = false ->
  open eng d filename = open eng (Demuxer_ctor (type_ d)) filename.
Proof.
  intros Hreach Hne. apply open_from_closed; [exact Hne|].
  apply (closed_is_default eng). exact Hreach.
Qed.

Lemma open_forgets_history_witness :
  reachable Fixture.engine Fixture.video_at_eof /\
  empty Fixture.v_path = false /\
  open Fixture.engine Fixture.video_at_eof Fixture.v_path
  = open Fixture.engine (Demuxer_ctor VIDEO) Fixture.v_path.
Proof.
  assert (Hreach : reachable Fixture.engine Fixture.video_at_eof).
  { repeat apply reach_readPacket. apply reach_open. apply reach_ctor. }
  split; [exact Hreach|]. split; [reflexivity|].
  apply (open_forgets_history Fixture.engine Fixture.video_at_eof
           Fixture.v_path Hreach eq_refl).
Defined.

(** X4. On a non-empty path [open] returns true exactly when the instance
    holds a session afterwards.  In particular a failed [open] on an open
    instance does not keep the earlier session: the instance is closed. *)
Theorem open_result_is_session (eng : ContainerEngine) (d : Demuxer)
    (filename : string) :
  empty filename = false ->
  (fst (open eng d filename) = true
   <-> getFormatContext (snd (open eng d filename)) <> None).
Proof.
  intros Hne. unfold open, getFormatContext. rewrite Hne.
  assert (Hd1 : format_ctx_ (match format_ctx_ d with
                             | Some _ => close d
                             | None => d
                             end) = None).
  { destruct (format_ctx_ d) eqn:Hctx; [rewrite close_is_ctor; reflexivity|].
    exact Hctx. }
  destruct (avformat_open_input eng filename) as [err|ctx0].
  - simpl. rewrite Hd1. split; [discriminate | intros H; contradiction].
  - destruct (avformat_find_stream_info eng ctx0) as [ret ctx].
    destruct (ret <? 0).
    + cbn [fst snd]. rewrite close_is_ctor. cbn [format_ctx_ Demuxer_ctor].
      split; [discriminate | intros H; contradiction].
    + destruct (0 <=? av_find_best_stream eng ctx AVMEDIA_TYPE_VIDEO);
        destruct (0 <=? av_find_best_stream eng ctx AVMEDIA_TYPE_AUDIO);
        simpl; split; try reflexivity; discriminate.
Qed.

Lemma open_result_is_session_witness :
  empty Fixture.x_path = false /\
  getFormatContext Fixture.video_on_av <> None /\
  fst (open Fixture.engine Fixture.video_on_av Fixture.x_path) = false /\
  getFormatContext (snd (open Fixture.engine Fixture.video_on_av Fixture.x_path))
  = None.
Proof.
  split; [reflexivity|]. split; [discriminate|]. split; [reflexivity|].
  pose proof (open_result_is_session Fixture.engine Fixture.video_on_av
                Fixture.x_path eq_refl) as [_ Hback].
  destruct (getFormatContext
              (snd (open Fixture.engine Fixture.video_on_av Fixture.x_path)))
    eqn:Hctx; [|reflexivity].
  exfalso. assert (Hne : Some t <> None) by discriminate.
  specialize (Hback Hne). vm_compute in Hback. discriminate Hback.
Defined.

(** X5. After an [open] that returns true on a reachable instance, the
    instance holds the session the probe produced, its EOF flag is false,
    each index is what [av_find_best_stream] answered for its kind on that
    session, and each handle is the table entry at its index when the
    index is non-negative and null otherwise. *)
Theorem open_success_state (eng : ContainerEngine) (d : Demuxer)
    (filename : string) :
  reachable eng d ->
  fst (open eng d filename) = true ->
  exists ctx0 ret ctx,
    avformat_open_input eng filename = Opened ctx0 /\
    avformat_find_stream_info eng ctx0 = (ret, ctx) /\
    0 <= ret /\
    getFormatContext (snd (open eng d filename)) = Some ctx /\
    isEOF (snd (open eng d filename)) = false /\
    video_stream_index_ (snd (open eng d filename))
    = av_find_best_stream eng ctx AVMEDIA_TYPE_VIDEO /\
    audio_stream_index_ (snd (open eng d filename))
    = av_find_best_stream eng ctx AVMEDIA_TYPE_AUDIO /\
    video_stream_ (snd (open eng d filename))
    = (if 0 <=? av_find_best_stream eng ctx AVMEDIA_TYPE_VIDEO
       then AVFormatContext.streams ctx
              (av_find_best_stream eng ctx AVMEDIA_TYPE_VIDEO)
       else None) /\
    audio_stream_ (snd (open eng d filename))
    = (if 0 <=? av_find_best_stream eng ctx AVMEDIA_TYPE_AUDIO
       then AVFormatContext.streams ctx
              (av_find_best_stream eng ctx AVMEDIA_TYPE_AUDIO)
       else None).
Proof.
  intros Hreach Htrue.
  destruct (empty filename) eqn:Hne.
  { unfold open in Htrue. rewrite Hne in Htrue. discriminate Htrue. }
  rewrite (open_from_closed eng d filename Hne (closed_is_default eng d Hreach))
    in *.
  unfold open in *. rewrite Hne in *. cbn [format_ctx_ Demuxer_ctor] in *.
  destruct (avformat_open_input eng filename) as [err|ctx0] eqn:Hopen;
    [discriminate Htrue|].
  destruct (avformat_find_stream_info eng ctx0) as [ret ctx] eqn:Hprobe.
  destruct (ret <? 0) eqn:Hret; [discriminate Htrue|].
  apply Z.ltb_ge in Hret.
  exists ctx0, ret, ctx.
  split; [reflexivity|]. split; [exact Hprobe|]. split; [exact Hret|].
  destruct (0 <=? av_find_best_stream eng ctx AVMEDIA_TYPE_VIDEO);
    destruct (0 <=? av_find_best_stream eng ctx AVMEDIA_TYPE_AUDIO);
    simpl; repeat split.
Qed.

Lemma open_success_state_witness :
  reachable Fixture.engine Fixture.video_at_eof /\
  fst (open Fixture.engine Fixture.video_at_eof Fixture.v_path) = true /\
  isEOF Fixture.video_at_eof = true /\
  isEOF (snd (open Fixture.engine Fixture.video_at_eof Fixture.v_path)) = false.
Proof.
  assert (Hreach : reachable Fixture.engine Fixture.video_at_eof).
  { repeat apply reach_readPacket. apply reach_open. apply reach_ctor. }
  split; [exact Hreach|]. split; [reflexivity|]. split; [reflexivity|].
  destruct (open_success_state Fixture.engine Fixture.video_at_eof
              Fixture.v_path Hreach eq_refl)
    as (ctx0 & ret & ctx & _ & _ & _ & _ & Heof & _).
  exact Heof.
Defined.

(** *** Reading a stream to its end *)

Lemma loop_stream_packets (d : Demuxer) (target : Z) (ctx : AVFormatContext.t)
    (pending : list Frame) (h : PacketHeap) :
  match stream_packets target pending with
  | [] =>
    packet (readPacket_loop d target ctx h pending) = None /\
    eof_file_ (self (readPacket_loop d target ctx h pending))
    = eof_file_ d || ends_at_eof pending /\
    live (heap (readPacket_loop d target ctx h pending)) = live h
  | p :: more =>
    packet (readPacket_loop d target ctx h pending) = Some p /\
    eof_file_ (self (readPacket_loop d target ctx h pending)) = eof_file_ d /\
    live (heap (readPacket_loop d target ctx h pending)) = S (live h) /\
    exists rest,
      format_ctx_ (self (readPacket_loop d target ctx h pending))
      = Some (AVFormatContext.with_frames ctx rest) /\
      stream_packets target rest = more /\
      ends_at_eof rest = ends_at_eof pending
  end.
Proof.
  revert h. induction pending as [|[ret pkt] rest IH]; intros h.
  - simpl. rewrite orb_true_r. repeat split.
  - cbn [stream_packets ends_at_eof readPacket_loop av_packet_alloc].
    destruct (ret <? 0) eqn:Hret.
    + cbn [packet self heap av_packet_free live Nat.pred].
      destruct (ret =? AVERROR_EOF); cbn; rewrite ?orb_true_r, ?orb_false_r;
        repeat split.
    + destruct (AVPacket.stream_index pkt =? target).
      * cbn [packet self heap live]. repeat split.
        exists rest. repeat split.
      * specialize (IH (av_packet_free
                          {| live := S (live h);
                             peak := Nat.max (peak h) (S (live h)) |})).
        cbn [av_packet_free live Nat.pred peak] in *.
        exact IH.
Qed.

Lemma readPacket_stream_packets (d : Demuxer) (ctx : AVFormatContext.t)
    (h : PacketHeap) :
  format_ctx_ d = Some ctx ->
  0 <= getStreamIndex d ->
  match stream_packets (getStreamIndex d) (AVFormatContext.frames ctx) with
  | [] =>
    packet (readPacket d h) = None /\
    eof_file_ (self (readPacket d h))
    = eof_file_ d || ends_at_eof (AVFormatContext.frames ctx) /\
    live (heap (readPacket d h)) = live h
  | p :: more =>
    packet (readPacket d h) = Some p /\
    eof_file_ (self (readPacket d h)) = eof_file_ d /\
    live (heap (readPacket d h)) = S (live h) /\
    exists ctx',
      format_ctx_ (self (readPacket d h)) = Some ctx' /\
      stream_packets (getStreamIndex d) (AVFormatContext.frames ctx') = more /\
      ends_at_eof (AVFormatContext.frames ctx')
      = ends_at_eof (AVFormatContext.frames ctx)
  end.
Proof.
  intros Hctx Hidx. unfold readPacket. rewrite Hctx.
  replace (getStreamIndex d <? 0) with false
    by (symmetry; apply Z.ltb_ge; exact Hidx).
  pose proof (loop_stream_packets d (getStreamIndex d) ctx
                (AVFormatContext.frames ctx) h) as Hloop.
  destruct (stream_packets (getStreamIndex d) (AVFormatContext.frames ctx))
    as [|p more]; [exact Hloop|].
  destruct Hloop as (Hp & He & Hl & rest & Hc & Hmore & Hends).
  repeat split; try assumption.
  exists (AVFormatContext.with_frames ctx rest). repeat split; assumption.
Qed.

(** X6. Reading until null on an open instance with a target stream hands
    over the target stream's packets in container order, none missing and
    none from another stream, stopping at the container's first failing
    read (or at the budget of the loop); every packet having been freed,
    as many packets are allocated afterwards as before.  When the budget
    was not exhausted, the EOF flag afterwards is set if it was set before
    or if that first failing read was the end of the container. *)
Theorem read_until_null_collects (budget : nat) (d : Demuxer)
    (ctx : AVFormatContext.t) (h : PacketHeap) :
  format_ctx_ d = Some ctx ->
  0 <= getStreamIndex d ->
  packets (read_until_null budget d h)
  = firstn budget
      (stream_packets (getStreamIndex d) (AVFormatContext.frames ctx)) /\
  live (drained_heap (read_until_null budget d h)) = live h /\
  ((List.length
      (stream_packets (getStreamIndex d) (AVFormatContext.frames ctx))
    < budget)%nat ->
   isEOF (drained_self (read_until_null budget d h))
   = eof_file_ d || ends_at_eof (AVFormatContext.frames ctx)).
Proof.
  revert d ctx h. induction budget as [|budget IH]; intros d ctx h Hctx Hidx.
  - simpl. repeat split. intros Hlt. inversion Hlt.
  - cbn [read_until_null].
    pose proof (readPacket_stream_packets d ctx h Hctx Hidx) as Hread.
    destruct (stream_packets (getStreamIndex d) (AVFormatContext.frames ctx))
      as [|p more].
    + destruct Hread as (Hp & He & Hl). rewrite Hp.
      cbn [packets drained_self drained_heap firstn isEOF].
      split; [reflexivity|]. split; [exact Hl|]. intros _. exact He.
    + destruct Hread as (Hp & He & Hl & ctx' & Hc & Hmore & Hends).
      rewrite Hp. cbn [packets drained_self drained_heap firstn].
      assert (Hidx' : getStreamIndex (self (readPacket d h))
                      = getStreamIndex d).
      { destruct (readPacket_keeps_handles d h)
          as (_ & _ & Hvi & Hai & Ht & _).
        unfold getStreamIndex. rewrite Hvi, Hai, Ht. reflexivity. }
      destruct (IH (self (readPacket d h)) ctx'
                  (av_packet_free (heap (readPacket d h))) Hc
                  ltac:(rewrite Hidx'; exact Hidx))
        as (IHp & IHl & IHe).
      rewrite Hidx', Hmore in IHp, IHe. rewrite Hends, He in IHe.
      split; [rewrite IHp; reflexivity|]. split.
      * rewrite IHl. cbn [av_packet_free live]. rewrite Hl. reflexivity.
      * intros Hlt. apply IHe. simpl in Hlt. apply Nat.succ_lt_mono. exact Hlt.
Qed.

(** X6 at the fixture: the loop of [testEOFDetection] on the interleaved
    file, VIDEO instance: both video packets in order, the audio packets
    skipped, nothing left allocated, EOF reached. *)
Lemma read_until_null_collects_witness :
  format_ctx_ Fixture.video_on_av = Some Fixture.av_file /\
  0 <= getStreamIndex Fixture.video_on_av /\
  packets (testEOFDetection_loop Fixture.video_on_av Fixture.empty_heap)
  = [Fixture.pkt 0 0; Fixture.pkt 0 512] /\
  live (drained_heap
          (testEOFDetection_loop Fixture.video_on_av Fixture.empty_heap)) = 0%nat /\
  isEOF (drained_self
           (testEOFDetection_loop Fixture.video_on_av Fixture.empty_heap))
  = true.
Proof.
  split; [reflexivity|]. split; [vm_compute; discriminate|].
  destruct (read_until_null_collects 1001 Fixture.video_on_av Fixture.av_file
              Fixture.empty_heap eq_refl ltac:(vm_compute; discriminate))
    as (Hp & Hl & He).
  split; [exact Hp|]. split; [exact Hl|].
  apply He. vm_compute. repeat constructor.
Defined.

(** *** seek and the EOF flag *)

(** X13. [seek] returns true exactly when the instance is open, its target
    index is non-negative, the stream table holds a stream at that index,
    and the engine's seek to the rescaled timestamp does not fail.  When
    the instance is not open, has no target index, or finds a null table
    entry at it, [seek] fails before the engine is asked: whatever the
    engine, the result is false and the instance, session included, is
    exactly as it was.  Otherwise the session afterwards is the one the
    engine's seek returned. *)
Theorem seek_true_iff (eng : ContainerEngine) (d : Demuxer)
    (timestamp flags : Z) :
  (fst (seek eng d timestamp flags) = true <->
   exists ctx stream,
     format_ctx_ d = Some ctx /\
     0 <= getStreamIndex d /\
     AVFormatContext.streams ctx (getStreamIndex d) = Some stream /\
     0 <= fst (av_seek_frame eng ctx (getStreamIndex d)
                 (av_rescale_q timestamp AV_TIME_BASE_Q
                    (AVStream.time_base stream))
                 flags)) /\
  (format_ctx_ d = None \/
   getStreamIndex d < 0 \/
   (exists ctx, format_ctx_ d = Some ctx /\
                AVFormatContext.streams ctx (getStreamIndex d) = None) ->
   forall other : ContainerEngine,
     seek other d timestamp flags = (false, d)) /\
  (forall ctx stream,
     format_ctx_ d = Some ctx ->
     0 <= getStreamIndex d ->
     AVFormatContext.streams ctx (getStreamIndex d) = Some stream ->
     format_ctx_ (snd (seek eng d timestamp flags))
     = Some (snd (av_seek_frame eng ctx (getStreamIndex d)
                    (av_rescale_q timestamp AV_TIME_BASE_Q
                       (AVStream.time_base stream))
                    flags))).
Proof.
  split; [split|split].
  - unfold seek. destruct (format_ctx_ d) as [ctx|]; [|discriminate].
    destruct (getStreamIndex d <? 0) eqn:Hidx; [discriminate|].
    apply Z.ltb_ge in Hidx.
    destruct (AVFormatContext.streams ctx (getStreamIndex d)) as [stream|]
      eqn:Hstream; [|discriminate].
    destruct (av_seek_frame eng ctx (getStreamIndex d) _ flags)
      as [ret ctx'] eqn:Hseek.
    destruct (ret <? 0) eqn:Hret; [discriminate|]. apply Z.ltb_ge in Hret.
    intros _. exists ctx, stream. rewrite Hseek. repeat split; assumption.
  - intros (ctx & stream & Hctx & Hidx & Hstream & Hret).
    rewrite (seek_open eng d ctx stream timestamp flags Hctx Hidx Hstream).
    destruct (av_seek_frame eng ctx (getStreamIndex d) _ flags) as [ret ctx'].
    simpl in Hret. apply Z.ltb_ge in Hret. rewrite Hret. reflexivity.
  - intros Hguard other. unfold seek.
    destruct (format_ctx_ d) as [ctx|]; [|reflexivity].
    destruct (getStreamIndex d <? 0) eqn:Hidx; [reflexivity|].
    apply Z.ltb_ge in Hidx.
    destruct Hguard as [Hnone | [Hneg | (ctx2 & Hctx2 & Hnull)]];
      [discriminate Hnone | lia |].
    injection Hctx2 as <-. rewrite Hnull. reflexivity.
  - intros ctx stream Hctx Hidx Hstream.
    rewrite (seek_open eng d ctx stream timestamp flags Hctx Hidx Hstream).
    destruct (av_seek_frame eng ctx (getStreamIndex d) _ flags) as [ret ctx'].
    destruct (ret <? 0); reflexivity.
Qed.

(** X13 on a null table entry: the echo engine would have succeeded and
    changed the session, had it been asked. *)
Lemma seek_true_iff_witness :
  format_ctx_ Fixture.video_on_null_entry = Some Fixture.broken_file /\
  AVFormatContext.streams Fixture.broken_file
    (getStreamIndex Fixture.video_on_null_entry) = None /\
  fst (av_seek_frame Fixture.echo_engine Fixture.broken_file 0 7 0) = 0 /\
  seek Fixture.echo_engine Fixture.video_on_null_entry 7 0
  = (false, Fixture.video_on_null_entry).
Proof.
  split; [reflexivity|]. split; [reflexivity|]. split; [reflexivity|].
  apply (proj1 (proj2 (seek_true_iff Fixture.echo_engine
                         Fixture.video_on_null_entry 7 0))).
  right. right. exists Fixture.broken_file. split; reflexivity.
Defined.

Lemma seek_never_sets_eof (eng : ContainerEngine) (d : Demuxer)
    (timestamp flags : Z) :
  eof_file_ (snd (seek eng d timestamp flags)) = true -> eof_file_ d = true.
Proof.
  unfold seek. destruct (format_ctx_ d) as [ctx|]; [|exact (fun H => H)].
  destruct (getStreamIndex d <? 0); [exact (fun H => H)|].
  destruct (AVFormatContext.streams ctx (getStreamIndex d)) as [stream|];
    [|exact (fun H => H)].
  destruct (av_seek_frame eng ctx (getStreamIndex d) _ flags) as [ret ctx'].
  destruct (ret <? 0); simpl; [exact (fun H => H) | discriminate].
Qed.

Lemma open_never_sets_eof (eng : ContainerEngine) (d : Demuxer)
    (filename : string) :
  reachable eng d ->
  eof_file_ (snd (open eng d filename)) = true ->
  snd (open eng d filename) = d.
Proof.
  intros Hreach. destruct (empty filename) eqn:Hne.
  - unfold open. rewrite Hne. reflexivity.
  - rewrite (open_from_closed eng d filename Hne
               (closed_is_default eng d Hreach)).
    unfold open. rewrite Hne. cbn [format_ctx_ Demuxer_ctor].
    destruct (avformat_open_input eng filename) as [err|ctx0];
      [discriminate|].
    destruct (avformat_find_stream_info eng ctx0) as [ret ctx].
    destruct (ret <? 0); [rewrite close_is_ctor; discriminate|].
    destruct (0 <=? av_find_best_stream eng ctx AVMEDIA_TYPE_VIDEO);
      destruct (0 <=? av_find_best_stream eng ctx AVMEDIA_TYPE_AUDIO);
      discriminate.
Qed.

(** X14. An instance reports end of file only while it is open with a
    target stream: in every reachable state with [isEOF()] true the
    session handle is non-null and [getStreamIndex()] is non-negative.
    An instance whose kind is absent from the container never reports
    end of file. *)
Theorem eof_needs_target (eng : ContainerEngine) (d : Demuxer) :
  reachable eng d ->
  isEOF d = true ->
  getFormatContext d <> None /\ 0 <= getStreamIndex d.
Proof.
  unfold isEOF, getFormatContext. intros Hreach.
  induction Hreach as [type | d filename Hd IH | d h Hd IH
                      | d timestamp flags Hd IH | d Hd IH].
  - discriminate.
  - intros Heof. pose proof (open_never_sets_eof eng d filename Hd Heof) as Hsame.
    rewrite Hsame in *. apply IH. exact Heof.
  - intros Heof.
    destruct (readPacket_keeps_handles d h) as (_ & _ & Hvi & Hai & Ht & _).
    assert (Hidx : getStreamIndex (self (readPacket d h)) = getStreamIndex d)
      by (unfold getStreamIndex; rewrite Hvi, Hai, Ht; reflexivity).
    rewrite Hidx.
    destruct (format_ctx_ d) as [ctx|] eqn:Hctx.
    + destruct (Z.lt_ge_cases (getStreamIndex d) 0) as [Hneg|Hok].
      * rewrite readPacket_not_ready in * by (right; exact Hneg).
        cbn [self] in *. rewrite Hctx. apply IH. exact Heof.
      * split; [|exact Hok].
        destruct (readPacket_open d ctx h Hctx Hok)
          as (sk & ret & pkt & ctx' & _ & _ & Hres).
        rewrite Hres. unfold loop_result. cbn [self].
        destruct (ret =? AVERROR_EOF); discriminate.
    + rewrite readPacket_not_ready in * by (left; exact Hctx).
      cbn [self] in *. rewrite Hctx. apply IH. exact Heof.
  - intros Heof.
    destruct (seek_keeps_handles eng d timestamp flags)
      as (_ & _ & Hvi & Hai & Ht & Hc).
    assert (Hidx : getStreamIndex (snd (seek eng d timestamp flags))
                   = getStreamIndex d)
      by (unfold getStreamIndex; rewrite Hvi, Hai, Ht; reflexivity).
    rewrite Hidx.
    destruct (IH (seek_never_sets_eof eng d timestamp flags Heof))
      as [Hopen Hok].
    split; [|exact Hok]. intros Hnone. apply Hopen. apply Hc. exact Hnone.
  - rewrite close_is_ctor. discriminate.
Qed.

Lemma eof_needs_target_witness :
  reachable Fixture.engine Fixture.video_at_eof /\
  isEOF Fixture.video_at_eof = true /\
  getFormatContext Fixture.video_at_eof <> None /\
  0 <= getStreamIndex Fixture.video_at_eof.
Proof.
  assert (Hreach : reachable Fixture.engine Fixture.video_at_eof).
  { repeat apply reach_readPacket. apply reach_open. apply reach_ctor. }
  split; [exact Hreach|]. split; [reflexivity|].
  apply (eof_needs_target Fixture.engine Fixture.video_at_eof Hreach eq_refl).
Defined.

(** ** Properties of the logger *)

Section LoggerFacts.

Import Logger.

Lemma append_nil_r (s : string) : String.append s EmptyString = s.
Proof. induction s as [|c s IH]; simpl; [|rewrite IH]; reflexivity. Qed.

Lemma append_assoc (a b c : string) :
  String.append (String.append a b) c = String.append a (String.append b c).
Proof. induction a as [|x a IH]; simpl; [|rewrite IH]; reflexivity. Qed.

Lemma contains_append (f : ascii -> bool) (a b : string) :
  contains f (String.append a b) = contains f a || contains f b.
Proof.
  induction a as [|x a IH]; simpl; [reflexivity|].
  rewrite IH. apply orb_assoc.
Qed.

Lemma concat_cons (x : string) (xs : list string) :
  String.concat EmptyString (x :: xs)
  = String.append x (String.concat EmptyString xs).
Proof.
  destruct xs as [|y ys]; simpl; [rewrite append_nil_r|]; reflexivity.
Qed.

Lemma contains_concat (f : ascii -> bool) (l : list string) :
  Forall (fun s => contains f s = false) l ->
  contains f (String.concat EmptyString l) = false.
Proof.
  induction 1 as [|x xs Hx _ IH]; [reflexivity|].
  rewrite concat_cons, contains_append, Hx, IH. reflexivity.
Qed.

(** *** getFileName *)

(** The loop started in the middle of a path: [pre] is what lies between
    the last separator seen and [p]. *)
Lemma getFileName_from_no_separator (p pre : string) :
  contains is_separator pre = false ->
  contains is_separator (getFileName_from p (String.append pre p)) = false.
Proof.
  revert pre. induction p as [|c rest IH]; intros pre Hpre.
  - simpl. rewrite append_nil_r. exact Hpre.
  - cbn [getFileName_from]. destruct (is_separator c) eqn:Hc.
    + apply (IH EmptyString). reflexivity.
    + replace (String.append pre (String c rest))
        with (String.append (String.append pre (String c EmptyString)) rest)
        by (rewrite append_assoc; reflexivity).
      apply IH. rewrite contains_append, Hpre. simpl. rewrite Hc. reflexivity.
Qed.

Lemma getFileName_from_plain (p pre : string) :
  contains is_separator p = false ->
  getFileName_from p (String.append pre p) = String.append pre p.
Proof.
  revert pre. induction p as [|c rest IH]; intros pre Hp; [reflexivity|].
  cbn [getFileName_from]. simpl in Hp. apply orb_false_iff in Hp.
  destruct Hp as [Hc Hrest]. rewrite Hc.
  replace (String.append pre (String c rest))
    with (String.append (String.append pre (String c EmptyString)) rest)
    by (rewrite append_assoc; reflexivity).
  apply IH. exact Hrest.
Qed.

Lemma getFileName_from_split (p done pre : string) :
  done = EmptyString \/ ends_with_separator done ->
  exists prefix,
    String.append done (String.append pre p)
    = String.append prefix (getFileName_from p (String.append pre p)) /\
    (prefix = EmptyString \/ ends_with_separator prefix).
Proof.
  revert done pre. induction p as [|c rest IH]; intros done pre Hdone.
  - exists done. split; [reflexivity | exact Hdone].
  - cbn [getFileName_from]. destruct (is_separator c) eqn:Hc.
    + destruct (IH (String.append done
                      (String.append pre (String c EmptyString)))
                  EmptyString) as (prefix & Heq & Hprefix).
      { right. exists (String.append done pre), c. split; [|exact Hc].
        rewrite append_assoc. reflexivity. }
      change (String.append EmptyString rest) with rest in Heq.
      exists prefix. split; [|exact Hprefix].
      rewrite <- Heq. rewrite !append_assoc. reflexivity.
    + destruct (IH done (String.append pre (String c EmptyString)) Hdone)
        as (prefix & Heq & Hprefix).
      exists prefix. split; [|exact Hprefix].
      rewrite append_assoc in Heq. exact Heq.
Qed.

Lemma getFileName_plain (p : string) :
  contains is_separator p = false -> getFileName p = p.
Proof.
  intros Hp. apply (getFileName_from_plain p EmptyString Hp).
Qed.

Lemma getFileName_clean (p : string) :
  contains is_separator (getFileName p) = false.
Proof.
  apply (getFileName_from_no_separator p EmptyString). reflexivity.
Qed.

Lemma getFileName_split (p : string) :
  exists prefix,
    p = String.append prefix (getFileName p) /\
    (prefix = EmptyString \/ ends_with_separator prefix).
Proof.
  destruct (getFileName_from_split p EmptyString EmptyString
              (or_introl eq_refl)) as (prefix & Heq & Hprefix).
  exists prefix. split; assumption.
Qed.

(** X7. The name [getFileName] returns holds no [/] and no backslash, and
    the path is that name behind a prefix that is empty or ends in a
    separator: the name is what follows the last separator of the path.
    Taking the name of a name changes nothing. *)
Theorem getFileName_after_last_separator (filePath : string) :
  contains is_separator (getFileName filePath) = false /\
  (exists prefix,
     filePath = String.append prefix (getFileName filePath) /\
     (prefix = EmptyString \/ ends_with_separator prefix)) /\
  getFileName (getFileName filePath) = getFileName filePath.
Proof.
  split; [apply getFileName_clean|]. split; [apply getFileName_split|].
  apply getFileName_plain. apply getFileName_clean.
Qed.

(** X8. A path without separator is its own name, and the name of
    [dir], a separator, then such a [name] is [name], whatever [dir]
    holds. *)
Theorem getFileName_join (dir name : string) (sep : ascii) :
  is_separator sep = true ->
  contains is_separator name = false ->
  getFileName name = name /\
  getFileName (String.append dir (String sep name)) = name.
Proof.
  intros Hsep Hname. split; [apply getFileName_plain; exact Hname|].
  unfold getFileName.
  generalize (String.append dir (String sep name)) at 2. intros fileName.
  revert fileName. induction dir as [|c dir IH]; intros fileName.
  - cbn [String.append getFileName_from]. rewrite Hsep.
    apply (getFileName_from_plain name EmptyString Hname).
  - cbn [String.append getFileName_from]. apply IH.
Qed.

(** *** Log statements *)

Lemma shift_filtered_fold (g : LogLevel) (values : list Value)
    (ls : LogStream) :
  level_ge (level_ ls) g = false ->
  fold_left (shift g) values ls = ls.
Proof.
  intros Hlow. induction values as [|v values IH]; [reflexivity|].
  cbn [fold_left]. unfold shift at 2. rewrite Hlow. exact IH.
Qed.

Lemma shift_pass_fold (g : LogLevel) (values : list Value) (ls : LogStream) :
  level_ge (level_ ls) g = true ->
  fold_left (shift g) values ls
  = with_stream ls
      (String.append (stream_ ls)
         (String.concat EmptyString (map render values))).
Proof.
  revert ls. induction values as [|v values IH]; intros ls Hok.
  - simpl. rewrite append_nil_r. destruct ls; reflexivity.
  - cbn [fold_left map]. rewrite concat_cons. unfold shift at 2. rewrite Hok.
    rewrite IH by exact Hok. unfold with_stream. cbn [stream_ level_ file_
      function_ line_]. rewrite append_assoc. reflexivity.
Qed.

(** X9. A log statement whose level is below the global level writes
    nothing: standard output and standard error are as before, whatever
    and however many values are streamed into it, and its buffer stays
    empty. *)
Theorem log_filtered (g : LogLevel) (m : Moment) (level : LogLevel)
    (file function : string) (line : Z) (values : list Value)
    (out : Console) :
  level_ge level g = false ->
  log g m level file function line values out = out /\
  stream_ (fold_left (shift g) values
             (LogStream_ctor g m level file function line)) = EmptyString.
Proof.
  intros Hlow. unfold log, statement.
  rewrite shift_filtered_fold by exact Hlow.
  unfold LogStream_dtor, LogStream_ctor. cbn [level_ stream_].
  rewrite Hlow. split; reflexivity.
Qed.

(** X10. A log statement whose level is at least the global level appends
    one text to standard output: the header (with the file name cut down
    by [getFileName]), the streamed values in order, the colour reset and
    a newline.  Standard error receives the same text when the level is
    ERROR or FATAL and nothing otherwise. *)
Theorem log_emitted (g : LogLevel) (m : Moment) (level : LogLevel)
    (file function : string) (line : Z) (values : list Value)
    (out : Console) :
  level_ge level g = true ->
  exists text,
    text = String.append (header m level (getFileName file) function line)
             (String.append (String.concat EmptyString (map render values))
                (String.append RESET (String LF EmptyString))) /\
    cout (log g m level file function line values out)
    = String.append (cout out) text /\
    cerr (log g m level file function line values out)
    = (if level_ge level ERROR then String.append (cerr out) text
       else cerr out).
Proof.
  intros Hok. eexists. split; [reflexivity|].
  unfold log, statement. rewrite shift_pass_fold by exact Hok.
  unfold LogStream_dtor, LogStream_ctor, with_stream. cbn [level_ stream_].
  rewrite Hok. rewrite append_assoc.
  destruct (level_ge level ERROR); split; reflexivity.
Qed.

Lemma contains_fill_string (f : ascii -> bool) (n : nat) (c : ascii) :
  f c = false -> contains f (fill_string n c) = false.
Proof.
  intros Hc. induction n as [|n IH]; simpl; [|rewrite Hc, IH]; reflexivity.
Qed.

Lemma decimal_no_newline (n : Z) : contains is_newline (decimal n) = false.
Proof.
  unfold decimal.
  assert (Hu : forall u, contains is_newline (NilEmpty.string_of_uint u)
                         = false).
  { induction u; simpl; try rewrite IHu; reflexivity. }
  assert (Hz : forall u, contains is_newline (NilZero.string_of_uint u)
                         = false).
  { intros u. destruct u; try apply Hu. reflexivity. }
  destruct (Z.to_int n) as [u|u]; simpl; [apply Hz | rewrite Hz; reflexivity].
Qed.

Lemma header_no_newline (m : Moment) (level : LogLevel)
    (file function : string) (line : Z) :
  contains is_newline (buffer m) = false ->
  contains is_newline (thread_id m) = false ->
  contains is_newline file = false ->
  contains is_newline function = false ->
  contains is_newline (header m level file function line) = false.
Proof.
  intros Hb Ht Hf Hfn. unfold header. apply contains_concat.
  assert (Hcolor : contains is_newline (getLevelColor level) = false)
    by (destruct level; reflexivity).
  assert (Hstr : contains is_newline (getLevelStr level) = false)
    by (destruct level; reflexivity).
  assert (Hms : contains is_newline
                  (setw_fill 6 "0"%char (decimal (now_ms m))) = false).
  { unfold setw_fill. rewrite contains_append, decimal_no_newline.
    rewrite contains_fill_string by reflexivity. reflexivity. }
  pose proof (decimal_no_newline line) as Hline.
  repeat (constructor; [first [assumption | reflexivity]|]). constructor.
Qed.

Lemma log_emitted_text (g : LogLevel) (m : Moment) (level : LogLevel)
    (file function : string) (line : Z) (values : list Value)
    (out : Console) :
  level_ge level g = true ->
  cout (log g m level file function line values out)
  = String.append (cout out)
      (String.append (header m level (getFileName file) function line)
         (String.append (String.concat EmptyString (map render values))
            (String.append RESET (String LF EmptyString)))).
Proof.
  intros Hok. unfold log, statement. rewrite shift_pass_fold by exact Hok.
  unfold LogStream_dtor, LogStream_ctor, with_stream. cbn [level_ stream_].
  rewrite Hok. rewrite append_assoc.
  destruct (level_ge level ERROR); reflexivity.
Qed.

(** X11. When neither the time text, the thread id, the file path, the
    function name nor any streamed value holds a newline, an emitted log
    statement adds exactly one line to standard output: text without a
    newline, then the newline. *)
Theorem log_single_line (g : LogLevel) (m : Moment) (level : LogLevel)
    (file function : string) (line : Z) (values : list Value)
    (out : Console) :
  level_ge level g = true ->
  contains is_newline (buffer m) = false ->
  contains is_newline (thread_id m) = false ->
  contains is_newline file = false ->
  contains is_newline function = false ->
  Forall (fun v => contains is_newline (render v) = false) values ->
  exists body,
    cout (log g m level file function line values out)
    = String.append (cout out) (String.append body (String LF EmptyString)) /\
    contains is_newline body = false.
Proof.
  intros Hok Hb Ht Hf Hfn Hvalues.
  pose proof (log_emitted_text g m level file function line values out Hok)
    as Hcout.
  exists (String.append (header m level (getFileName file) function line)
            (String.append (String.concat EmptyString (map render values))
               RESET)).
  split.
  - rewrite Hcout. rewrite !append_assoc. reflexivity.
  - rewrite !contains_append.
    rewrite header_no_newline; try assumption.
    + rewrite contains_concat; [reflexivity|].
      apply Forall_map. exact Hvalues.
    + destruct (getFileName_split file) as (prefix & Heq & _).
      rewrite Heq, contains_append in Hf. apply orb_false_iff in Hf.
      apply Hf.
Qed.

(** X12. The level test is made anew at each step of a statement.  If the
    global level is lowered between the construction of the temporary and
    the first [<<], the statement prints its values, the reset and the
    newline without any header; if it is raised in between, the statement
    prints nothing although its header had been built. *)
Theorem statement_level_changed (before after : LogLevel) (m : Moment)
    (level : LogLevel) (file function : string) (line : Z)
    (values : list Value) (out : Console) :
  level_ge level before = false ->
  level_ge level after = true ->
  cout (statement before after m level file function line values out)
  = String.append (cout out)
      (String.append (String.concat EmptyString (map render values))
         (String.append RESET (String LF EmptyString))) /\
  statement after before m level file function line values out = out /\
  stream_ (LogStream_ctor after m level file function line)
  = header m level (getFileName file) function line.
Proof.
  intros Hlow Hok. split; [|split].
  - unfold statement. rewrite shift_pass_fold by exact Hok.
    unfold LogStream_dtor, LogStream_ctor, with_stream. cbn [level_ stream_].
    rewrite Hok, Hlow. cbn [String.append].
    destruct (level_ge level ERROR); reflexivity.
  - unfold statement. rewrite shift_filtered_fold by exact Hlow.
    unfold LogStream_dtor, LogStream_ctor. cbn [level_]. rewrite Hlow.
    reflexivity.
  - unfold LogStream_ctor. cbn [stream_]. rewrite Hok. reflexivity.
Qed.

End LoggerFacts.

(** *** The logger, run *)

(** X8 on the path a compiler passes for this repository's demultiplexer. *)
Lemma getFileName_join_witness :
  Logger.is_separator "/"%char = true /\
  Logger.contains Logger.is_separator "demuxer.cpp" = false /\
  Logger.getFileName Logger.sample_path = "demuxer.cpp"%string.
Proof.
  split; [reflexivity|]. split; [reflexivity|].
  apply (proj2 (getFileName_join "/home/dev/src/demuxer" "demuxer.cpp"
                  "/"%char eq_refl eq_refl)).
Defined.

(** X9 as in [tests/utils/debug_test.cpp]: global level ERROR, an INFO
    statement. *)
Lemma log_filtered_witness :
  Logger.level_ge Logger.INFO Logger.ERROR = false /\
  Logger.log Logger.ERROR Logger.sample_moment Logger.INFO Logger.sample_path
    "main" 13 [Logger.Text "filtered"; Logger.Int 7]
    {| Logger.cout := "before"; Logger.cerr := EmptyString |}
  = {| Logger.cout := "before"; Logger.cerr := EmptyString |}.
Proof.
  split; [reflexivity|].
  apply (proj1 (log_filtered Logger.ERROR Logger.sample_moment Logger.INFO
                  Logger.sample_path "main" 13
                  [Logger.Text "filtered"; Logger.Int 7]
                  {| Logger.cout := "before"; Logger.cerr := EmptyString |}
                  eq_refl)).
Defined.

(** X10 under the initial global level: an ERROR statement reaches both
    streams with the same text, which ends in the values, the reset and
    the newline. *)
Lemma log_emitted_witness :
  Logger.level_ge Logger.ERROR Logger.initial_globalLevel = true /\
  exists text,
    text
    = String.append
        (Logger.header Logger.sample_moment Logger.ERROR
           (Logger.getFileName Logger.sample_path) "open" 44)
        (String.append
           (String.concat EmptyString
              (map Logger.render [Logger.Text "code "; Logger.Int (-2)]))
           (String.append Logger.RESET (String Logger.LF EmptyString))) /\
    Logger.cout
      (Logger.log Logger.initial_globalLevel Logger.sample_moment Logger.ERROR
         Logger.sample_path "open" 44 [Logger.Text "code "; Logger.Int (-2)]
         {| Logger.cout := EmptyString; Logger.cerr := EmptyString |})
    = String.append EmptyString text /\
    Logger.cerr
      (Logger.log Logger.initial_globalLevel Logger.sample_moment Logger.ERROR
         Logger.sample_path "open" 44 [Logger.Text "code "; Logger.Int (-2)]
         {| Logger.cout := EmptyString; Logger.cerr := EmptyString |})
    = (if Logger.level_ge Logger.ERROR Logger.ERROR
       then String.append EmptyString text
       else EmptyString).
Proof.
  split; [reflexivity|].
  apply (log_emitted Logger.initial_globalLevel Logger.sample_moment
           Logger.ERROR Logger.sample_path "open" 44
           [Logger.Text "code "; Logger.Int (-2)]
           {| Logger.cout := EmptyString; Logger.cerr := EmptyString |}
           eq_refl).
Defined.

Lemma log_single_line_witness :
  Logger.level_ge Logger.WARN Logger.initial_globalLevel = true /\
  exists body,
    Logger.cout
      (Logger.log Logger.initial_globalLevel Logger.sample_moment Logger.WARN
         Logger.sample_path "open" 70 [Logger.Text "no video"; Logger.Int 3]
         {| Logger.cout := EmptyString; Logger.cerr := EmptyString |})
    = String.append EmptyString
        (String.append body (String Logger.LF EmptyString)) /\
    Logger.contains Logger.is_newline body = false.
Proof.
  split; [reflexivity|].
  apply (log_single_line Logger.initial_globalLevel Logger.sample_moment
           Logger.WARN Logger.sample_path "open" 70
           [Logger.Text "no video"; Logger.Int 3]
           {| Logger.cout := EmptyString; Logger.cerr := EmptyString |});
    try reflexivity.
  repeat constructor.
Defined.

(** X12: an INFO statement begun under ERROR and finished under DEBUG
    prints a bare line. *)
Lemma statement_level_changed_witness :
  Logger.level_ge Logger.INFO Logger.ERROR = false /\
  Logger.level_ge Logger.INFO Logger.DEBUG = true /\
  Logger.cout
    (Logger.statement Logger.ERROR Logger.DEBUG Logger.sample_moment
       Logger.INFO Logger.sample_path "main" 13 [Logger.Text "late"]
       {| Logger.cout := EmptyString; Logger.cerr := EmptyString |})
  = String.append "late"
      (String.append Logger.RESET (String Logger.LF EmptyString)).
Proof.
  split; [reflexivity|]. split; [reflexivity|].
  apply (proj1 (statement_level_changed Logger.ERROR Logger.DEBUG
                  Logger.sample_moment Logger.INFO Logger.sample_path "main"
                  13 [Logger.Text "late"]
                  {| Logger.cout := EmptyString; Logger.cerr := EmptyString |}
                  eq_refl eq_refl)).
Defined.

Example header_of_sample :
  Logger.header Logger.sample_moment Logger.INFO
    (Logger.getFileName Logger.sample_path) "open" 23
  = String.concat EmptyString
      [ Logger.CYAN; "[2025-01-02 03:04:05.004711] "%string;
        Logger.GREEN; Logger.BOLD; "[INFO] "%string;
        Logger.MAGENTA; "[140241] "%string;
        Logger.BLUE; "[demuxer.cpp:23] "%string;
        Logger.CYAN; "[open] "%string; Logger.GREEN ].
Proof. reflexivity. Qed.
